(** * Cell widgets of the notebook (src/cells/widget.ts)

    A shallow embedding of [BaseCellWidget], [CodeCellWidget],
    [MarkdownCellWidget] and [RawCellWidget], and the properties of the
    view/model synchronisation protocol stated about them.

    The widgets are classes over the phosphor toolkit.  Each method is
    embedded as a state transformer over a [World]: the cell model (shared
    with, and mutated by, the widget) together with the widget's own
    fields.  Calls into the toolkit ([addClass], [removeClass], [update],
    [insertChild], [connect], [dispose]) are embedded by their contract. *)

From Stdlib Require Import Ascii.
From stdpp Require Import gmap strings list.

(** ** Math guard *)

Module MathGuard.

(** A text in which a placeholder token is a symbol of its own. *)
Inductive sym : Type :=
| Chr (c : Ascii.ascii)
| Placeholder (k : nat).

Definition tokens : Type := list sym.

#[global] Instance sym_eq_dec : EqDecision sym.
Proof. solve_decision. Defined.

(** The characters of a plain string, verbatim. *)
Fixpoint verbatim (s : string) : tokens :=
  match s with
  | EmptyString => []
  | String c s' => Chr c :: verbatim s'
  end.

(** What a scan for math delimiters yields: prose and math expressions,
    in the order of the text. *)
Inductive chunk : Type :=
| Prose (s : string)
| Math (e : string).

(** The math expressions among the chunks, in order. *)
Fixpoint expressions (cs : list chunk) : list string :=
  match cs with
  | [] => []
  | Prose _ :: cs' => expressions cs'
  | Math e :: cs' => e :: expressions cs'
  end.

(** Modelled from the spec: the body of [removeMath] (utils/latex) behind
    [extractMath]: each math expression is replaced by a placeholder token
    of its own, numbered in the order of the text from [k] on, and the
    mapping sends each token to the expression it stands for. *)
Fixpoint strip (k : nat) (cs : list chunk) : tokens * gmap nat string :=
  match cs with
  | [] => ([], ∅)
  | Prose s :: cs' =>
      let r := strip k cs' in (verbatim s ++ r.1, r.2)
  | Math e :: cs' =>
      let r := strip (S k) cs' in (Placeholder k :: r.1, <[k := e]> r.2)
  end.

(** Modelled from the spec: what [replaceMath] (utils/latex) does to one
    symbol of the rendered HTML: a placeholder token of the mapping becomes
    its math expression, verbatim; anything else stays. *)
Definition restoreSym (mapping : gmap nat string) (x : sym) : tokens :=
  match x with
  | Chr c => [Chr c]
  | Placeholder k =>
      match mapping !! k with
      | Some e => verbatim e
      | None => [Placeholder k]
      end
  end.

(** Modelled from the spec: [replaceMath] of utils/latex, the spec's
    [restoreMath(html, mapping)]: every placeholder token of the rendered
    HTML is replaced by its original math expression. *)
Definition restoreMath (html : tokens) (mapping : gmap nat string) : tokens :=
  html ≫= restoreSym mapping.

(** [e] occurs in [out] as one contiguous, unmodified run of characters. *)
Definition contains (out : tokens) (e : string) : Prop :=
  ∃ before after, out = before ++ verbatim e ++ after.

(** The text a list of chunks spells out. *)
Definition chunkText (c : chunk) : string :=
  match c with
  | Prose s => s
  | Math e => e
  end.

Fixpoint joined (cs : list chunk) : string :=
  match cs with
  | [] => ""
  | c :: cs' => chunkText c +:+ joined cs'
  end.

(** Modelled from the spec: the scan of [removeMath] (utils/latex) for
    math-expression delimiters.  The delimiter grammar (inline and block
    math) it follows is its own; what makes it a scan of the text is that
    its chunks are the consecutive spans of the text: put together they
    spell the text out, character for character. *)
Record Scanner : Type := mkScanner {
  scan : string → list chunk;
  scan_spans : ∀ t, joined (scan t) = t;
}.

(** Modelled from the spec: [removeMath] of utils/latex, the spec's
    [extractMath(text)]: the stripped text and the placeholder mapping,
    which holds the math spans of the text as they stand in it. *)
Definition extractMath (sc : Scanner) (t : string) : tokens * gmap nat string :=
  strip 0 (scan sc t).

(** Where a left-to-right scan stands: in prose, or inside a math
    expression opened by a dollar sign; either way with the characters read
    so far. *)
Inductive mode : Type :=
| InProse (pre : string)
| InMath (m : string).

Definition flush (pre : string) : list chunk :=
  if decide (pre = "") then [] else [Prose pre].

(** A sample scanner: inline math between two dollar signs; a dollar sign
    that is never closed is prose. *)
Fixpoint dollarSpans (st : mode) (s : string) : list chunk :=
  match s with
  | EmptyString =>
      match st with
      | InProse pre => flush pre
      | InMath m => [Prose m]
      end
  | String c s' =>
      match st with
      | InProse pre =>
          if Ascii.eqb c "$"%char
          then flush pre ++ dollarSpans (InMath "$") s'
          else dollarSpans (InProse (pre +:+ String c "")) s'
      | InMath m =>
          if Ascii.eqb c "$"%char
          then Math (m +:+ "$") :: dollarSpans (InProse "") s'
          else dollarSpans (InMath (m +:+ String c "")) s'
      end
  end.

Definition inlineMath (t : string) : list chunk := dollarSpans (InProse "") t.

Lemma append_cons (c : Ascii.ascii) (s1 s2 : string) :
  String c s1 +:+ s2 = String c (s1 +:+ s2).
Proof. reflexivity. Qed.

Lemma append_assoc (s1 s2 s3 : string) :
  (s1 +:+ s2) +:+ s3 = s1 +:+ s2 +:+ s3.
Proof.
  induction s1 as [| c s1 IH]; [reflexivity |].
  by rewrite !append_cons, IH.
Qed.

Lemma append_empty_r (s : string) : s +:+ "" = s.
Proof.
  induction s as [| c s IH]; [reflexivity |]. by rewrite append_cons, IH.
Qed.

Lemma joined_app (cs1 cs2 : list chunk) :
  joined (cs1 ++ cs2) = joined cs1 +:+ joined cs2.
Proof.
  induction cs1 as [| c cs1 IH]; cbn [joined app]; [done |].
  by rewrite IH, append_assoc.
Qed.

Lemma joined_flush (pre : string) : joined (flush pre) = pre.
Proof.
  unfold flush. destruct (decide (pre = "")) as [-> | _]; cbn [joined chunkText];
    [done | apply append_empty_r].
Qed.

(** The chunks of the sample scanner spell out what it has read and what it
    still reads. *)
Lemma dollarSpans_spans (s : string) (st : mode) :
  joined (dollarSpans st s) =
  match st with InProse pre => pre | InMath m => m end +:+ s.
Proof.
  revert st. induction s as [| c s IH]; intros st; cbn [dollarSpans].
  - destruct st as [pre | m]; rewrite append_empty_r;
      [apply joined_flush | cbn [joined chunkText]; apply append_empty_r].
  - destruct st as [pre | m]; destruct (Ascii.eqb_spec c "$"%char) as [-> | _].
    + rewrite joined_app, joined_flush, IH. done.
    + rewrite IH, append_assoc. done.
    + cbn [joined chunkText]. rewrite IH, append_assoc. done.
    + rewrite IH, append_assoc. done.
Qed.

Definition inlineScanner : Scanner :=
  mkScanner inlineMath (λ t, dollarSpans_spans t (InProse "")).

End MathGuard.

(** ** Class names *)

(** The class name the toolkit adds to every widget. *)
Definition WIDGET_CLASS : string := "p-Widget".

Definition CELL_CLASS : string := "jp-Cell".
Definition SELECTED_CLASS : string := "jp-mod-selected".
Definition MARKED_CLASS : string := "jp-mod-marked".
Definition CODE_CELL_CLASS : string := "jp-CodeCell".
Definition MARKDOWN_CELL_CLASS : string := "jp-MarkdownCell".
Definition RAW_CELL_CLASS : string := "jp-RawCell".
Definition RENDERED_CLASS : string := "jp-mod-rendered".
Definition FOCUSED_CLASS : string := "jp-mod-focused".

(** ** The cell model, as the widgets use it *)

(** [model.input.textEditor]: the text and the language mode. *)
Record TextEditorModel : Type := mkTextEditorModel {
  text : string;
  mimetype : string;
}.

Record InputAreaModel : Type := mkInputAreaModel {
  textEditor : TextEditorModel;
}.

(** A connection to a signal: the method connected and the identity of the
    object it was connected for (the [thisArg] of [connect]). *)
Definition Connection : Type := string * nat.

(** [ICellModel], with the [rendered] facet of [IMarkdownCellModel] (read
    by the markdown widget only) and the connections of its [stateChanged]
    signal. *)
Record CellModel : Type := mkCellModel {
  selected : bool;
  marked : bool;
  focused : bool;
  rendered : bool;
  input : InputAreaModel;
  stateChanged : gset Connection;
}.

(** [IChangedArgs]: the name of the property that changed and its new
    value (the facets are booleans). *)
Record IChangedArgs : Type := mkChangedArgs {
  name : string;
  newValue : bool;
}.

(** ** The widgets *)

Inductive CellKind : Type :=
| BaseCellWidget
| CodeCellWidget
| MarkdownCellWidget
| RawCellWidget.

(** The sub-views a cell widget puts in its layout. *)
Inductive SubView : Type :=
| InputArea      (* this.input *)
| OutputArea     (* this.output, code cells *)
| Rendered.      (* this.rendered, markdown cells *)

#[global] Instance SubView_eq_dec : EqDecision SubView.
Proof. solve_decision. Defined.

(** What a widget does to its collaborators, in the order it does it. *)
Inductive Effect : Type :=
| CallFocus                                  (* this.input.editor.focus() *)
| CallRemoveMath (t : string)                (* removeMath(text) *)
| CallMarked (s : MathGuard.tokens)          (* marked(data['text']) *)
| CallReplaceMath (html : MathGuard.tokens)  (* replaceMath(html, data['math']) *)
| CallTypeset                                (* typeset(this.rendered.node) *)
| DeliverUpdateRequest.                      (* an update-request message reaches the widget *)

#[global] Instance Effect_eq_dec : EqDecision Effect.
Proof. solve_decision. Defined.

(** The fields of a cell widget: those of the toolkit's [Widget] that the
    cell widgets touch, and those the classes of widget.ts add. *)
Record CellWidget : Type := mkCellWidget {
  kind : CellKind;
  self : nat;                         (* the identity of the object *)
  classList : gset string;            (* this.node.classList *)
  tabIndex : Z;                       (* this.node.tabIndex *)
  layout : list SubView;              (* the children of this.layout, in order *)
  innerHTML : MathGuard.tokens;       (* this.rendered.node.innerHTML *)
  _dirty : bool;                      (* MarkdownCellWidget._dirty *)
  updatePending : bool;               (* an update-request message is posted *)
  isDisposed : bool;
  effects : list Effect;              (* the calls to collaborators so far *)
}.

(** The widget and the model it is bound to: the model is one object, which
    the widget reads and writes and the notebook mutates. *)
Record World : Type := mkWorld {
  model : CellModel;
  widget : CellWidget;
}.

(** A method body: it runs on the world and leaves it changed. *)
Definition Cmd : Type := World → World.

Definition skip : Cmd := λ w, w.
Definition andThen (c1 c2 : Cmd) : Cmd := λ w, c2 (c1 w).
Definition cond (b : World → bool) (c1 c2 : Cmd) : Cmd :=
  λ w, if b w then c1 w else c2 w.

Declare Scope cmd_scope.
Delimit Scope cmd_scope with cmd.
Bind Scope cmd_scope with Cmd.
Notation "c1 ;; c2" := (andThen c1 c2)
  (at level 100, c2 at level 200, right associativity) : cmd_scope.
Definition onWidget (f : CellWidget → CellWidget) : Cmd :=
  λ w, mkWorld (model w) (f (widget w)).
Definition onModel (f : CellModel → CellModel) : Cmd :=
  λ w, mkWorld (f (model w)) (widget w).

(** *** Field updates *)

Definition set_classList (f : gset string → gset string) (v : CellWidget) : CellWidget :=
  mkCellWidget (kind v) (self v) (f (classList v)) (tabIndex v) (layout v)
    (innerHTML v) (_dirty v) (updatePending v) (isDisposed v) (effects v).
Definition set_tabIndex (z : Z) (v : CellWidget) : CellWidget :=
  mkCellWidget (kind v) (self v) (classList v) z (layout v)
    (innerHTML v) (_dirty v) (updatePending v) (isDisposed v) (effects v).
Definition set_layout (f : list SubView → list SubView) (v : CellWidget) : CellWidget :=
  mkCellWidget (kind v) (self v) (classList v) (tabIndex v) (f (layout v))
    (innerHTML v) (_dirty v) (updatePending v) (isDisposed v) (effects v).
Definition set_innerHTML (h : MathGuard.tokens) (v : CellWidget) : CellWidget :=
  mkCellWidget (kind v) (self v) (classList v) (tabIndex v) (layout v)
    h (_dirty v) (updatePending v) (isDisposed v) (effects v).
Definition set_dirty (b : bool) (v : CellWidget) : CellWidget :=
  mkCellWidget (kind v) (self v) (classList v) (tabIndex v) (layout v)
    (innerHTML v) b (updatePending v) (isDisposed v) (effects v).
Definition set_updatePending (b : bool) (v : CellWidget) : CellWidget :=
  mkCellWidget (kind v) (self v) (classList v) (tabIndex v) (layout v)
    (innerHTML v) (_dirty v) b (isDisposed v) (effects v).
Definition set_isDisposed (b : bool) (v : CellWidget) : CellWidget :=
  mkCellWidget (kind v) (self v) (classList v) (tabIndex v) (layout v)
    (innerHTML v) (_dirty v) (updatePending v) b (effects v).
Definition log (es : list Effect) (v : CellWidget) : CellWidget :=
  mkCellWidget (kind v) (self v) (classList v) (tabIndex v) (layout v)
    (innerHTML v) (_dirty v) (updatePending v) (isDisposed v) (effects v ++ es).

Definition set_mimetype (s : string) (m : CellModel) : CellModel :=
  mkCellModel (selected m) (marked m) (focused m) (rendered m)
    (mkInputAreaModel (mkTextEditorModel (text (textEditor (input m))) s))
    (stateChanged m).
Definition set_text (s : string) (m : CellModel) : CellModel :=
  mkCellModel (selected m) (marked m) (focused m) (rendered m)
    (mkInputAreaModel (mkTextEditorModel s (mimetype (textEditor (input m)))))
    (stateChanged m).
Definition set_stateChanged (f : gset Connection → gset Connection) (m : CellModel) : CellModel :=
  mkCellModel (selected m) (marked m) (focused m) (rendered m) (input m)
    (f (stateChanged m)).

(** *** The toolkit, by its contract *)

(** [Widget.addClass] and [Widget.removeClass]: the class list is a set. *)
Definition addClass (c : string) : Cmd :=
  onWidget (set_classList (λ s, s ∪ {[c]})).
Definition removeClass (c : string) : Cmd :=
  onWidget (set_classList (λ s, s ∖ {[c]})).

(** [Widget.update]: posts an update-request message to the widget; the
    message is delivered later, by the message loop, and a request posted
    while one is pending is folded into it. *)
Definition update : Cmd := onWidget (set_updatePending true).

(** [PanelLayout.insertChild(index, child)], which [StackedLayout] inherits:
    a child already in the layout is moved to the index (clamped to the last
    position), a new one is inserted at it.  No child leaves the layout. *)
Definition indexOf (child : SubView) (l : list SubView) : option nat :=
  fst <$> list_find (λ x, x = child) l.
Definition insertAt (j : nat) (child : SubView) (l : list SubView) : list SubView :=
  take j l ++ child :: drop j l.
Definition insertChild_list (index : nat) (child : SubView) (l : list SubView)
  : list SubView :=
  let n := length l in
  let j := index `min` n in
  match indexOf child l with
  | Some i =>
      let j := if decide (j = n) then j - 1 else j in
      if decide (i = j) then l else insertAt j child (delete i l)
  | None => insertAt j child l
  end.

(** Whether [insertChild(index, child)] moves a child that is in the layout
    already to another position. *)
Definition childMoves (index : nat) (child : SubView) (l : list SubView) : bool :=
  let n := length l in
  let j := index `min` n in
  match indexOf child l with
  | Some i => negb (i =? (if decide (j = n) then j - 1 else j))
  | None => false
  end.

(** [StackedLayout.insertChild(index, child)]: the children change as
    [PanelLayout.insertChild] has it, and when a child has really moved
    [StackedLayout.moveChild] calls [update] on the parent, the cell
    widget. *)
Definition insertChild (index : nat) (child : SubView) : Cmd :=
  cond (λ w, childMoves index child (layout (widget w)))
    (onWidget (set_layout (insertChild_list index child)) ;; update)%cmd
    (onWidget (set_layout (insertChild_list index child))).

(** [PanelLayout.addChild(child)]: [insertChild] at the end. *)
Definition addChild (child : SubView) : Cmd :=
  onWidget (set_layout (λ l, insertChild_list (length l) child l)).

(** [signal.connect(callback, thisArg)]: the connection is added, once. *)
Definition connect (c : Connection) : Cmd :=
  onModel (set_stateChanged (λ s, s ∪ {[c]})).

(** [new Widget()]: the node carries the toolkit's widget class, nothing
    else is set yet. *)
Definition Widget_new (k : CellKind) (id : nat) : CellWidget :=
  mkCellWidget k id {[WIDGET_CLASS]} 0 [] [] false false false [].

(** ** BaseCellWidget *)

(** The method the widget connects to [model.stateChanged], for itself. *)
Definition onModelChanged_slot (v : CellWidget) : Connection :=
  ("onModelChanged"%string, self v).

(** [BaseCellWidget.constructor(model)], after [super()]. *)
Definition BaseCellWidget_constructor : Cmd :=
  (addClass CELL_CLASS ;;
   onWidget (set_tabIndex (-1)) ;;
   (* this._model = model; this._input = new InputAreaWidget(model.input) *)
   λ w, connect (onModelChanged_slot (widget w)) w)%cmd.

(** [BaseCellWidget.onUpdateRequest]; [super.onUpdateRequest] of [Widget]
    does nothing. *)
Definition BaseCellWidget_onUpdateRequest : Cmd :=
  (cond (λ w, selected (model w))
     (addClass SELECTED_CLASS) (removeClass SELECTED_CLASS) ;;
   cond (λ w, marked (model w))
     (addClass MARKED_CLASS) (removeClass MARKED_CLASS) ;;
   cond (λ w, focused (model w))
     (addClass FOCUSED_CLASS) (removeClass FOCUSED_CLASS))%cmd.

(** [BaseCellWidget.onModelChanged(sender, args)]. *)
Definition BaseCellWidget_onModelChanged (args : IChangedArgs) : Cmd :=
  (update ;;
   cond (λ _, String.eqb (name args) "focused" && newValue args)
     (onWidget (log [CallFocus])) skip)%cmd.

(** ** CodeCellWidget and RawCellWidget *)

Definition CodeCellWidget_constructor : Cmd :=
  (BaseCellWidget_constructor ;;
   addClass CODE_CELL_CLASS ;;
   (* this._output = new OutputAreaWidget(model.output) *)
   onWidget (set_layout (λ _, [])) ;;
   addChild InputArea ;;
   addChild OutputArea)%cmd.

Definition RawCellWidget_constructor : Cmd :=
  (BaseCellWidget_constructor ;;
   addClass RAW_CELL_CLASS ;;
   onWidget (set_layout (λ _, [])) ;;
   addChild InputArea)%cmd.

(** ** MarkdownCellWidget *)

Definition MarkdownCellWidget_constructor : Cmd :=
  (BaseCellWidget_constructor ;;
   onWidget (set_dirty true) ;;            (* private _dirty = true *)
   addClass MARKDOWN_CELL_CLASS ;;
   onModel (set_mimetype "text/x-ipythongfm") ;;
   onWidget (set_innerHTML []) ;;          (* this._rendered = new Widget() *)
   onWidget (set_layout (λ _, [])) ;;      (* this.layout = new StackedLayout() *)
   addChild InputArea ;;
   addChild Rendered ;;
   update)%cmd.

Section Rendering.

(** The math guard of utils/latex and the markdown converter: the widget
    calls them, whatever they compute. *)
Variable removeMath : string → MathGuard.tokens * gmap nat string.
Variable markedjs : MathGuard.tokens → MathGuard.tokens.
Variable replaceMath : MathGuard.tokens → gmap nat string → MathGuard.tokens.

(** The HTML the pipeline computes from a text. *)
Definition pipeline (t : string) : MathGuard.tokens :=
  replaceMath (markedjs (removeMath t).1) (removeMath t).2.

(** The calls of one render computation on the text [t]. *)
Definition renderCalls (t : string) : list Effect :=
  [CallRemoveMath t; CallMarked (removeMath t).1;
   CallReplaceMath (markedjs (removeMath t).1); CallTypeset].

(** The dirty branch of [MarkdownCellWidget.onUpdateRequest]. *)
Definition render : Cmd := λ w,
  let t := text (textEditor (input (model w))) in
  let data := removeMath t in
  let html := markedjs data.1 in
  let out := replaceMath html data.2 in
  onWidget (λ v, log [CallRemoveMath t; CallMarked data.1;
                      CallReplaceMath html; CallTypeset]
                   (set_innerHTML out v)) w.

(** [MarkdownCellWidget.onUpdateRequest]. *)
Definition MarkdownCellWidget_onUpdateRequest : Cmd :=
  (cond (λ w, rendered (model w))
     (cond (λ w, _dirty (widget w)) render skip ;;
      insertChild 1 Rendered ;;
      addClass RENDERED_CLASS)
     (insertChild 1 InputArea ;;
      removeClass RENDERED_CLASS) ;;
   onWidget (set_dirty false) ;;
   BaseCellWidget_onUpdateRequest)%cmd.

(** [MarkdownCellWidget.onModelChanged(sender, args)]. *)
Definition MarkdownCellWidget_onModelChanged (args : IChangedArgs) : Cmd :=
  (BaseCellWidget_onModelChanged args ;;
   cond (λ _, String.eqb (name args) "rendered")
     (onWidget (set_dirty true) ;; update) skip)%cmd.

(** *** Construction and method dispatch *)

Definition constructor (k : CellKind) : Cmd :=
  match k with
  | BaseCellWidget => BaseCellWidget_constructor
  | CodeCellWidget => CodeCellWidget_constructor
  | MarkdownCellWidget => MarkdownCellWidget_constructor
  | RawCellWidget => RawCellWidget_constructor
  end.

(** [new K(model)] for the object [id]. *)
Definition new (k : CellKind) (id : nat) (m : CellModel) : World :=
  constructor k (mkWorld m (Widget_new k id)).

Definition onUpdateRequest : Cmd := λ w,
  match kind (widget w) with
  | MarkdownCellWidget => MarkdownCellWidget_onUpdateRequest w
  | _ => BaseCellWidget_onUpdateRequest w
  end.

Definition onModelChanged (args : IChangedArgs) : Cmd := λ w,
  match kind (widget w) with
  | MarkdownCellWidget => MarkdownCellWidget_onModelChanged args w
  | _ => BaseCellWidget_onModelChanged args w
  end.

(** ** The notebook around the widget *)

Inductive Facet : Type := FSelected | FMarked | FFocused | FRendered.

Definition facetName (f : Facet) : string :=
  match f with
  | FSelected => "selected"
  | FMarked => "marked"
  | FFocused => "focused"
  | FRendered => "rendered"
  end.

Definition set_facet (f : Facet) (b : bool) (m : CellModel) : CellModel :=
  match f with
  | FSelected => mkCellModel b (marked m) (focused m) (rendered m) (input m) (stateChanged m)
  | FMarked => mkCellModel (selected m) b (focused m) (rendered m) (input m) (stateChanged m)
  | FFocused => mkCellModel (selected m) (marked m) b (rendered m) (input m) (stateChanged m)
  | FRendered => mkCellModel (selected m) (marked m) (focused m) b (input m) (stateChanged m)
  end.

(** [model.stateChanged.emit(args)]: the widget's handler runs, at once,
    if it is connected. *)
Definition emit (args : IChangedArgs) : Cmd :=
  cond (λ w, bool_decide (onModelChanged_slot (widget w) ∈ stateChanged (model w)))
    (onModelChanged args) skip.

(** The message loop delivers the pending update request, if any. *)
Definition processMessages : Cmd :=
  cond (λ w, updatePending (widget w))
    (onWidget (set_updatePending false) ;;
     onWidget (log [DeliverUpdateRequest]) ;;
     onUpdateRequest)%cmd
    skip.

(** What happens to a widget and its model between construction and
    disposal. *)
Inductive Action : Type :=
| SetFacet (f : Facet) (b : bool)   (* a facet is set; the change is signalled *)
| SetText (s : string)              (* the text is edited; no signal of the cell model *)
| Emit (args : IChangedArgs)        (* the model signals a change of some property *)
| ProcessMessages.                  (* the message loop runs *)

Definition step (a : Action) : Cmd :=
  match a with
  | SetFacet f b => (onModel (set_facet f b) ;; emit (mkChangedArgs (facetName f) b))%cmd
  | SetText s => onModel (set_text s)
  | Emit args => emit args
  | ProcessMessages => processMessages
  end.

Fixpoint run (acts : list Action) : Cmd :=
  match acts with
  | [] => skip
  | a :: acts' => (step a ;; run acts')%cmd
  end.

(** [Widget.dispose], which the cell widgets inherit unchanged: the layout
    is disposed, and [clearSignalData(this)] and [clearMessageData(this)]
    drop every connection made for the widget and every message posted to
    it. *)
Definition dispose : Cmd :=
  cond (λ w, isDisposed (widget w)) skip
    (onWidget (set_isDisposed true) ;;
     onWidget (set_layout (λ _, [])) ;;
     (λ w, onModel (set_stateChanged (filter (λ c, c.2 ≠ self (widget w)))) w) ;;
     onWidget (set_updatePending false))%cmd.

(** ** What the proofs count and compare *)

(** A render computation shows as a call of the markdown converter. *)
Definition isRender (e : Effect) : bool :=
  match e with
  | CallMarked _ => true
  | _ => false
  end.

Fixpoint countRenders (es : list Effect) : nat :=
  match es with
  | [] => 0
  | e :: es' => (if isRender e then 1 else 0) + countRenders es'
  end.

(** The render computations a widget has run so far. *)
Definition renderCount (w : World) : nat :=
  countRenders (effects (widget w)).

(** The widget's handler is connected to the signal of its model. *)
Definition connected (w : World) : Prop :=
  onModelChanged_slot (widget w) ∈ stateChanged (model w).

(** A markdown cell widget that has not applied an update yet: the flag
    set by the constructor and the update it requested are still there. *)
Definition awaitingFirstUpdate (w : World) : Prop :=
  kind (widget w) = MarkdownCellWidget ∧ _dirty (widget w) = true ∧
  updatePending (widget w) = true ∧ renderCount w = 0.

(** A markdown cell widget with both sub-views in its layout. *)
Definition stacked (w : World) : Prop :=
  kind (widget w) = MarkdownCellWidget ∧
  (layout (widget w) = [InputArea; Rendered] ∨
   layout (widget w) = [Rendered; InputArea]).

(** A code cell widget as its constructor leaves it: the input area above
    the output area, nothing rendered. *)
Definition inputAboveOutput (w : World) : Prop :=
  kind (widget w) = CodeCellWidget ∧
  layout (widget w) = [InputArea; OutputArea] ∧ renderCount w = 0.

(** The widget with an update request posted when [b]. *)
Definition postIf (b : bool) (v : CellWidget) : CellWidget :=
  mkCellWidget (kind v) (self v) (classList v) (tabIndex v) (layout v)
    (innerHTML v) (_dirty v) (b || updatePending v) (isDisposed v) (effects v).

(** The class list after [addClass c] (when [b]) or [removeClass c]. *)
Definition toggled (b : bool) (c : string) (s : gset string) : gset string :=
  if b then s ∪ {[c]} else s ∖ {[c]}.

(** The three class names of the base flags and the one of the markdown
    cell are four different names. *)
Definition distinct4 (a b c d : string) : Prop :=
  a ≠ b ∧ a ≠ c ∧ a ≠ d ∧ b ≠ c ∧ b ≠ d ∧ c ≠ d.

(** ** What the further proofs count *)

Definition isFocus (e : Effect) : bool :=
  match e with
  | CallFocus => true
  | _ => false
  end.

Definition isDelivery (e : Effect) : bool :=
  match e with
  | DeliverUpdateRequest => true
  | _ => false
  end.

Fixpoint countIf (p : Effect → bool) (es : list Effect) : nat :=
  match es with
  | [] => 0
  | e :: es' => (if p e then 1 else 0) + countIf p es'
  end.

(** The calls of [focus] on the editor so far. *)
Definition focusCount (w : World) : nat :=
  countIf isFocus (effects (widget w)).

(** The update requests delivered to the widget so far. *)
Definition deliveryCount (w : World) : nat :=
  countIf isDelivery (effects (widget w)).

(** The action signals [focused] with a true new value. *)
Definition signalsFocus (a : Action) : bool :=
  match a with
  | SetFacet f b => String.eqb (facetName f) "focused" && b
  | Emit args => String.eqb (name args) "focused" && newValue args
  | _ => false
  end.

(** The action signals a change of [rendered]. *)
Definition signalsRendered (a : Action) : bool :=
  match a with
  | SetFacet f _ => String.eqb (facetName f) "rendered"
  | Emit args => String.eqb (name args) "rendered"
  | _ => false
  end.

Fixpoint countActions (p : Action → bool) (acts : list Action) : nat :=
  match acts with
  | [] => 0
  | a :: acts' => (if p a then 1 else 0) + countActions p acts'
  end.

(** What the notebook itself does to the model with an action. *)
Definition applyToModel (a : Action) (m : CellModel) : CellModel :=
  match a with
  | SetFacet f b => set_facet f b m
  | SetText s => set_text s m
  | _ => m
  end.

Fixpoint modelAfter (acts : list Action) (m : CellModel) : CellModel :=
  match acts with
  | [] => m
  | a :: acts' => modelAfter acts' (applyToModel a m)
  end.

Definition changeFacet (fb : Facet * bool) : Action := SetFacet fb.1 fb.2.

(** A raw cell widget as its constructor leaves it. *)
Definition inputOnly (w : World) : Prop :=
  kind (widget w) = RawCellWidget ∧
  layout (widget w) = [InputArea] ∧ renderCount w = 0.

(** A widget nothing reaches: not connected, no update pending. *)
Definition inert (w : World) : Prop :=
  ¬ connected w ∧ updatePending (widget w) = false.

(** ** A sample cell *)

(** The text of the spec's scenario. *)
Definition sampleText : string := "Energy: $E=mc^2$ rules.".

(** A model nobody is connected to, with the sample text, no facet set but
    [rendered], which is [r]. *)
Definition sampleModel (r : bool) : CellModel :=
  mkCellModel false false false r
    (mkInputAreaModel (mkTextEditorModel sampleText "text/plain")) ∅.

(** A markdown converter that leaves its input alone but for the paragraph
    it wraps it in. *)
Definition paragraph (s : MathGuard.tokens) : MathGuard.tokens :=
  MathGuard.verbatim "<p>" ++ s ++ MathGuard.verbatim "</p>".

(** The math guard over inline math. *)
Definition sampleRemoveMath : string → MathGuard.tokens * gmap nat string :=
  MathGuard.extractMath MathGuard.inlineScanner.

(** A markdown cell widget on the sample model, as constructed. *)
Definition sampleMarkdown (r : bool) : World :=
  new MarkdownCellWidget 7 (sampleModel r).

(** ** Basic facts *)

Lemma flag_classes_distinct :
  distinct4 SELECTED_CLASS MARKED_CLASS FOCUSED_CLASS RENDERED_CLASS.
Proof. repeat split; discriminate. Qed.

Lemma elem_of_toggled b c x s :
  x ∈ toggled b c s ↔ (x = c ∧ b = true) ∨ (x ≠ c ∧ x ∈ s).
Proof.
  unfold toggled. destruct b.
  - rewrite elem_of_union, elem_of_singleton.
    destruct (decide (x = c)); intuition congruence.
  - rewrite elem_of_difference, elem_of_singleton. intuition congruence.
Qed.

(** Three toggles in a row, over any four distinct class names. *)
Lemma toggled_flags (sc mc fc rc : string) (bs bm bf : bool) (s0 s : gset string) :
  distinct4 sc mc fc rc →
  (∀ c, c ≠ rc → c ∈ s0 ↔ c ∈ s) →
  let s' := toggled bf fc (toggled bm mc (toggled bs sc s0)) in
  (sc ∈ s' ↔ bs = true) ∧ (mc ∈ s' ↔ bm = true) ∧ (fc ∈ s' ↔ bf = true) ∧
  (∀ c, c ∉ [sc; mc; fc; rc] → c ∈ s' ↔ c ∈ s).
Proof.
  intros (? & ? & ? & ? & ? & ?) Hs0 s'. subst s'.
  repeat split; rewrite ?elem_of_toggled; try (intuition congruence).
  - intros Hin. rewrite !not_elem_of_cons in *. apply Hs0; intuition congruence.
  - intros Hin. rewrite !not_elem_of_cons in *. rewrite <- Hs0 in Hin; intuition.
Qed.

(** ** The methods, executed symbolically *)

Lemma BaseCellWidget_onUpdateRequest_eq (w : World) :
  BaseCellWidget_onUpdateRequest w =
  onWidget (set_classList (λ s,
    toggled (focused (model w)) FOCUSED_CLASS
      (toggled (marked (model w)) MARKED_CLASS
         (toggled (selected (model w)) SELECTED_CLASS s)))) w.
Proof. destruct w as [[[] [] [] r i sc] v]; reflexivity. Qed.

Lemma BaseCellWidget_onModelChanged_eq (args : IChangedArgs) (w : World) :
  BaseCellWidget_onModelChanged args w =
  onWidget (λ v, let v' := set_updatePending true v in
                 if String.eqb (name args) "focused" && newValue args
                 then log [CallFocus] v' else v') w.
Proof.
  unfold BaseCellWidget_onModelChanged, andThen, cond, skip, update, onWidget.
  cbn [model widget].
  destruct (String.eqb (name args) "focused" && newValue args); reflexivity.
Qed.

Lemma MarkdownCellWidget_onModelChanged_eq (args : IChangedArgs) (w : World) :
  MarkdownCellWidget_onModelChanged args w =
  onWidget (λ v, let v' := set_updatePending true v in
                 let v'' := if String.eqb (name args) "focused" && newValue args
                            then log [CallFocus] v' else v' in
                 if String.eqb (name args) "rendered"
                 then set_dirty true v'' else v'') w.
Proof.
  unfold MarkdownCellWidget_onModelChanged, andThen.
  rewrite BaseCellWidget_onModelChanged_eq.
  unfold cond, skip, update, andThen, onWidget. cbn [model widget].
  destruct w as [m v].
  destruct (String.eqb (name args) "rendered"),
           (String.eqb (name args) "focused" && newValue args);
    destruct v; reflexivity.
Qed.

Lemma onModelChanged_frame (args : IChangedArgs) (w : World) :
  let w' := onModelChanged args w in
  model w' = model w ∧ kind (widget w') = kind (widget w) ∧
  self (widget w') = self (widget w) ∧
  isDisposed (widget w') = isDisposed (widget w) ∧
  layout (widget w') = layout (widget w) ∧
  classList (widget w') = classList (widget w) ∧
  innerHTML (widget w') = innerHTML (widget w) ∧
  updatePending (widget w') = true.
Proof.
  unfold onModelChanged.
  destruct (kind (widget w)) eqn:Hk;
    rewrite ?MarkdownCellWidget_onModelChanged_eq, ?BaseCellWidget_onModelChanged_eq;
    generalize (String.eqb (name args) "focused" && newValue args);
    generalize (String.eqb (name args) "rendered");
    intros [] []; cbn; rewrite ?Hk; done.
Qed.

Lemma insertChild_eq (index : nat) (child : SubView) (w : World) :
  insertChild index child w =
  onWidget (λ v, postIf (childMoves index child (layout v))
                   (set_layout (insertChild_list index child) v)) w.
Proof.
  destruct w as [m [k id cl ti ly ih d up dis ef]].
  unfold insertChild, cond, andThen, update, onWidget. cbn [widget layout].
  destruct (childMoves index child ly); reflexivity.
Qed.

Lemma MarkdownCellWidget_onUpdateRequest_eq (w : World) :
  MarkdownCellWidget_onUpdateRequest w =
  BaseCellWidget_onUpdateRequest
    (onWidget (λ v,
       let v' := if rendered (model w) && _dirty v
                 then widget (render w) else v in
       let child := if rendered (model w) then Rendered else InputArea in
       postIf (childMoves 1 child (layout v))
         (set_dirty false
            (set_classList (toggled (rendered (model w)) RENDERED_CLASS)
               (set_layout (insertChild_list 1 child) v')))) w).
Proof.
  unfold MarkdownCellWidget_onUpdateRequest, andThen, cond.
  destruct w as [[s mk f [] i sc] [k id cl ti ly ih [] up dis ef]];
    cbn [model widget rendered _dirty]; unfold skip;
    rewrite insertChild_eq; reflexivity.
Qed.

(** *** BaseCellWidget.onUpdateRequest: the visual flags *)

Lemma onUpdateRequest_model (w : World) :
  model (onUpdateRequest w) = model w.
Proof.
  unfold onUpdateRequest.
  destruct (kind (widget w));
    rewrite ?MarkdownCellWidget_onUpdateRequest_eq,
            ?BaseCellWidget_onUpdateRequest_eq; reflexivity.
Qed.

Lemma onUpdateRequest_classList (w : World) :
  ∃ s0, classList (widget (onUpdateRequest w)) =
        toggled (focused (model w)) FOCUSED_CLASS
          (toggled (marked (model w)) MARKED_CLASS
             (toggled (selected (model w)) SELECTED_CLASS s0)) ∧
        ∀ c, c ≠ RENDERED_CLASS → c ∈ s0 ↔ c ∈ classList (widget w).
Proof.
  unfold onUpdateRequest.
  destruct (kind (widget w));
    rewrite ?MarkdownCellWidget_onUpdateRequest_eq,
            ?BaseCellWidget_onUpdateRequest_eq;
    cbn [onWidget set_classList set_dirty postIf classList widget model];
    try (exists (classList (widget w)); split; [reflexivity | tauto]).
  eexists; split; [reflexivity |].
  intros c Hc. rewrite elem_of_toggled.
  cbn [set_layout classList].
  destruct (rendered (model w) && _dirty (widget w)); cbn; tauto.
Qed.

(** C1. For every combination of the facets [selected], [marked] and
    [focused] of the model, after an update is applied to a cell widget of
    any kind, the class of each of the three flags is on the widget exactly
    when its facet is true (added when true, removed when false), every
    class that is none of the four flag classes is as it was, and the model
    is untouched. *)
Theorem visual_flags_after_update (w : World) :
  let w' := onUpdateRequest w in
  (SELECTED_CLASS ∈ classList (widget w') ↔ selected (model w) = true) ∧
  (MARKED_CLASS ∈ classList (widget w') ↔ marked (model w) = true) ∧
  (FOCUSED_CLASS ∈ classList (widget w') ↔ focused (model w) = true) ∧
  (∀ c, c ∉ [SELECTED_CLASS; MARKED_CLASS; FOCUSED_CLASS; RENDERED_CLASS] →
        c ∈ classList (widget w') ↔ c ∈ classList (widget w)) ∧
  model w' = model w.
Proof.
  intros w'. subst w'.
  destruct (onUpdateRequest_classList w) as (s0 & -> & Hs0).
  pose proof (toggled_flags _ _ _ _ (selected (model w)) (marked (model w))
                (focused (model w)) s0 _ flag_classes_distinct Hs0) as Ht.
  cbv zeta in Ht. destruct Ht as (? & ? & ? & ?).
  auto using onUpdateRequest_model.
Qed.

(** *** MarkdownCellWidget.onUpdateRequest: rendering and the dirty flag *)

Lemma markdown_update_model (w : World) :
  model (MarkdownCellWidget_onUpdateRequest w) = model w.
Proof.
  rewrite MarkdownCellWidget_onUpdateRequest_eq, BaseCellWidget_onUpdateRequest_eq.
  reflexivity.
Qed.

Lemma markdown_update_dirty (w : World) :
  _dirty (widget (MarkdownCellWidget_onUpdateRequest w)) = false.
Proof.
  rewrite MarkdownCellWidget_onUpdateRequest_eq, BaseCellWidget_onUpdateRequest_eq.
  reflexivity.
Qed.

Lemma markdown_update_effects (w : World) :
  effects (widget (MarkdownCellWidget_onUpdateRequest w)) =
  effects (widget w) ++
    (if rendered (model w) && _dirty (widget w)
     then renderCalls (text (textEditor (input (model w)))) else []).
Proof.
  rewrite MarkdownCellWidget_onUpdateRequest_eq, BaseCellWidget_onUpdateRequest_eq.
  destruct (rendered (model w) && _dirty (widget w)) eqn:E;
    cbn; rewrite E; cbn; [reflexivity | by rewrite app_nil_r].
Qed.

Lemma markdown_update_innerHTML (w : World) :
  innerHTML (widget (MarkdownCellWidget_onUpdateRequest w)) =
  if rendered (model w) && _dirty (widget w)
  then pipeline (text (textEditor (input (model w))))
  else innerHTML (widget w).
Proof.
  rewrite MarkdownCellWidget_onUpdateRequest_eq, BaseCellWidget_onUpdateRequest_eq.
  destruct (rendered (model w) && _dirty (widget w)) eqn:E;
    cbn; rewrite E; reflexivity.
Qed.

Lemma markdown_update_layout (w : World) :
  layout (widget (MarkdownCellWidget_onUpdateRequest w)) =
  insertChild_list 1 (if rendered (model w) then Rendered else InputArea)
    (layout (widget w)).
Proof.
  rewrite MarkdownCellWidget_onUpdateRequest_eq, BaseCellWidget_onUpdateRequest_eq.
  destruct (rendered (model w) && _dirty (widget w)) eqn:E;
    cbn; rewrite E; reflexivity.
Qed.

Lemma countRenders_app (es1 es2 : list Effect) :
  countRenders (es1 ++ es2) = countRenders es1 + countRenders es2.
Proof. induction es1 as [| e es1 IH]; cbn; [done | rewrite IH; lia]. Qed.

Lemma renderCount_effects (w w' : World) (es : list Effect) :
  effects (widget w') = effects (widget w) ++ es →
  renderCount w' = renderCount w + countRenders es.
Proof. unfold renderCount. intros ->. apply countRenders_app. Qed.

Lemma markdown_update_renderCount (w : World) :
  renderCount (MarkdownCellWidget_onUpdateRequest w) =
  renderCount w + (if rendered (model w) && _dirty (widget w) then 1 else 0).
Proof.
  rewrite (renderCount_effects _ _ _ (markdown_update_effects w)).
  destruct (rendered (model w) && _dirty (widget w)); reflexivity.
Qed.

(** C5 (as the code has it). An applied update of a markdown cell widget
    always leaves the dirty flag cleared, whether it rendered or not: it
    renders exactly when the [rendered] facet is true and the flag was set.
    The change handler never clears the flag: it sets it on a [rendered]
    notification and leaves it alone otherwise. *)
Theorem dirty_cleared_by_every_update (w : World) (args : IChangedArgs) :
  let w' := MarkdownCellWidget_onUpdateRequest w in
  _dirty (widget w') = false ∧
  renderCount w' =
    renderCount w + (if rendered (model w) && _dirty (widget w) then 1 else 0) ∧
  _dirty (widget (MarkdownCellWidget_onModelChanged args w)) =
    (if String.eqb (name args) "rendered" then true else _dirty (widget w)).
Proof.
  split; [apply markdown_update_dirty |].
  split; [apply markdown_update_renderCount |].
  rewrite MarkdownCellWidget_onModelChanged_eq. cbn.
  destruct (String.eqb (name args) "rendered"),
           (String.eqb (name args) "focused" && newValue args); reflexivity.
Qed.

(** C6. An update of a markdown cell widget whose [rendered] facet is true
    and whose dirty flag is false calls neither the math guard, nor the
    markdown converter, nor the typesetter, and leaves the HTML of the
    rendered node and the model as they were. *)
Theorem clean_update_reuses_rendered_content (w : World) :
  rendered (model w) = true →
  _dirty (widget w) = false →
  let w' := MarkdownCellWidget_onUpdateRequest w in
  effects (widget w') = effects (widget w) ∧
  innerHTML (widget w') = innerHTML (widget w) ∧
  model w' = model w.
Proof.
  intros Hr Hd w'. subst w'.
  rewrite markdown_update_effects, markdown_update_innerHTML,
    markdown_update_model, Hr, Hd.
  cbn. by rewrite app_nil_r.
Qed.

(** *** What no step touches *)

Lemma onUpdateRequest_frame (w : World) :
  let w' := onUpdateRequest w in
  model w' = model w ∧ kind (widget w') = kind (widget w) ∧
  self (widget w') = self (widget w) ∧
  isDisposed (widget w') = isDisposed (widget w) ∧
  (kind (widget w) ≠ MarkdownCellWidget →
   updatePending (widget w') = updatePending (widget w)).
Proof.
  unfold onUpdateRequest.
  destruct (kind (widget w)) eqn:Hk;
    rewrite ?MarkdownCellWidget_onUpdateRequest_eq, ?BaseCellWidget_onUpdateRequest_eq;
    cbn; rewrite ?Hk; try done.
  destruct (rendered (model w) && _dirty (widget w)); cbn; rewrite ?Hk; done.
Qed.

Lemma processMessages_frame (w : World) :
  let w' := processMessages w in
  model w' = model w ∧ kind (widget w') = kind (widget w) ∧
  self (widget w') = self (widget w) ∧
  isDisposed (widget w') = isDisposed (widget w) ∧
  (kind (widget w) ≠ MarkdownCellWidget → updatePending (widget w') = false).
Proof.
  unfold processMessages, cond, skip, andThen.
  destruct (updatePending (widget w)) eqn:Hp; [| done].
  pose proof (onUpdateRequest_frame
    (onWidget (log [DeliverUpdateRequest]) (onWidget (set_updatePending false) w))) as H.
  cbv zeta in H. destruct H as (-> & -> & -> & -> & Hq).
  split; [done |]. split; [done |]. split; [done |]. split; [done |].
  intros Hk. by rewrite Hq.
Qed.

Lemma emit_frame (args : IChangedArgs) (w : World) :
  let w' := emit args w in
  model w' = model w ∧ kind (widget w') = kind (widget w) ∧
  self (widget w') = self (widget w) ∧
  isDisposed (widget w') = isDisposed (widget w) ∧
  layout (widget w') = layout (widget w).
Proof.
  unfold emit, cond, skip. destruct (bool_decide _); [| done].
  pose proof (onModelChanged_frame args w) as H. cbv zeta in H. tauto.
Qed.

Lemma step_frame (a : Action) (w : World) :
  let w' := step a w in
  kind (widget w') = kind (widget w) ∧
  self (widget w') = self (widget w) ∧
  isDisposed (widget w') = isDisposed (widget w) ∧
  stateChanged (model w') = stateChanged (model w) ∧
  mimetype (textEditor (input (model w'))) = mimetype (textEditor (input (model w))).
Proof.
  destruct a as [f b | t | args |]; cbn [step]; unfold andThen.
  - pose proof (emit_frame (mkChangedArgs (facetName f) b) (onModel (set_facet f b) w)) as H.
    cbv zeta in H. destruct H as (-> & -> & -> & -> & _). destruct f; done.
  - done.
  - pose proof (emit_frame args w) as H.
    cbv zeta in H. destruct H as (-> & -> & -> & -> & _). done.
  - pose proof (processMessages_frame w) as H.
    cbv zeta in H. destruct H as (-> & -> & -> & -> & _). done.
Qed.

(** *** Notifications and the message loop, for a markdown cell *)

Lemma notify_markdown (f : Facet) (b : bool) (w : World) :
  kind (widget w) = MarkdownCellWidget → connected w →
  step (SetFacet f b) w =
  MarkdownCellWidget_onModelChanged (mkChangedArgs (facetName f) b)
    (onModel (set_facet f b) w).
Proof.
  intros Hk Hc. cbn [step]. unfold andThen, emit, cond.
  rewrite bool_decide_eq_true_2 by (destruct f; exact Hc).
  unfold onModelChanged. cbn [onModel widget]. by rewrite Hk.
Qed.

Lemma drain_markdown (w : World) :
  kind (widget w) = MarkdownCellWidget → updatePending (widget w) = true →
  processMessages w =
  MarkdownCellWidget_onUpdateRequest
    (onWidget (log [DeliverUpdateRequest]) (onWidget (set_updatePending false) w)).
Proof.
  intros Hk Hp. unfold processMessages, cond, andThen. rewrite Hp.
  unfold onUpdateRequest. cbn [onWidget widget kind log set_updatePending].
  by rewrite Hk.
Qed.




(** *** The focus side effect *)

Lemma onUpdateRequest_effects (w : World) :
  ∃ es, effects (widget (onUpdateRequest w)) = effects (widget w) ++ es.
Proof.
  unfold onUpdateRequest. destruct (kind (widget w));
    try (exists []; rewrite BaseCellWidget_onUpdateRequest_eq, app_nil_r;
         reflexivity).
  eexists. apply markdown_update_effects.
Qed.

(** C4. The handler of a change notification that names [focused] with a
    true new value calls [focus] on the editor of the input area itself,
    and leaves the update it has requested pending: the classes, the layout
    and the rendered HTML are as before.  When the message loop then
    delivers the update request, that delivery comes after the call of
    [focus]. *)
Theorem focus_precedes_scheduled_update (args : IChangedArgs) (w : World) :
  name args = "focused"%string →
  newValue args = true →
  let w' := onModelChanged args w in
  effects (widget w') = effects (widget w) ++ [CallFocus] ∧
  updatePending (widget w') = true ∧
  classList (widget w') = classList (widget w) ∧
  layout (widget w') = layout (widget w) ∧
  innerHTML (widget w') = innerHTML (widget w) ∧
  ∃ es, effects (widget (processMessages w')) =
        effects (widget w) ++ CallFocus :: DeliverUpdateRequest :: es.
Proof.
  intros Hn Hv w'.
  pose proof (onModelChanged_frame args w) as Hf. cbv zeta in Hf. fold w' in Hf.
  destruct Hf as (_ & _ & _ & _ & Hl & Hc & Hh & Hp).
  assert (He : effects (widget w') = effects (widget w) ++ [CallFocus]).
  { subst w'. unfold onModelChanged.
    destruct (kind (widget w));
      rewrite ?MarkdownCellWidget_onModelChanged_eq,
              ?BaseCellWidget_onModelChanged_eq, Hn, Hv; reflexivity. }
  repeat split; try assumption.
  unfold processMessages, cond, andThen. rewrite Hp.
  destruct (onUpdateRequest_effects
    (onWidget (log [DeliverUpdateRequest]) (onWidget (set_updatePending false) w')))
    as (es & ->).
  exists es. cbn. rewrite He, <- !app_assoc. reflexivity.
Qed.

(** *** The first update of a markdown cell *)

Lemma new_markdown_awaiting (id : nat) (m : CellModel) :
  awaitingFirstUpdate (new MarkdownCellWidget id m).
Proof. repeat split. Qed.

Lemma emit_keeps_awaiting (args : IChangedArgs) (w : World) :
  awaitingFirstUpdate w → awaitingFirstUpdate (emit args w).
Proof.
  intros (Hk & Hd & Hp & Hn). unfold emit, cond, skip.
  destruct (bool_decide _); [| done].
  unfold onModelChanged. rewrite Hk, MarkdownCellWidget_onModelChanged_eq.
  unfold awaitingFirstUpdate, renderCount in *.
  generalize (String.eqb (name args) "focused" && newValue args).
  generalize (String.eqb (name args) "rendered").
  intros [] []; cbn; rewrite ?countRenders_app, ?Hn; done.
Qed.

Lemma step_keeps_awaiting (a : Action) (w : World) :
  a ≠ ProcessMessages → awaitingFirstUpdate w → awaitingFirstUpdate (step a w).
Proof.
  destruct a as [f b | t | args |]; intros Ha Hw; cbn [step]; unfold andThen.
  - apply emit_keeps_awaiting. exact Hw.
  - exact Hw.
  - by apply emit_keeps_awaiting.
  - done.
Qed.

Lemma run_keeps_awaiting (acts : list Action) (w : World) :
  Forall (λ a, a ≠ ProcessMessages) acts →
  awaitingFirstUpdate w → awaitingFirstUpdate (run acts w).
Proof.
  intros Hacts. revert w.
  induction Hacts as [| a acts Ha _ IH]; intros w Hw; [exact Hw |].
  cbn [run]. unfold andThen. apply IH. by apply step_keeps_awaiting.
Qed.

(** C8 (as the code has it). A markdown cell widget is constructed with its
    dirty flag set and an update requested, and nothing that happens before
    that update is applied clears the flag or renders.  The first update
    applied runs the render computation if the [rendered] facet is true by
    then, and none if it is false; either way it clears the flag. *)
Theorem first_update_renders_iff_rendered
    (id : nat) (m : CellModel) (acts : list Action) :
  Forall (λ a, a ≠ ProcessMessages) acts →
  let w0 := new MarkdownCellWidget id m in
  let w := run acts w0 in
  _dirty (widget w0) = true ∧ updatePending (widget w0) = true ∧
  _dirty (widget w) = true ∧ updatePending (widget w) = true ∧
  renderCount w = 0 ∧
  renderCount (processMessages w) = (if rendered (model w) then 1 else 0) ∧
  _dirty (widget (processMessages w)) = false.
Proof.
  intros Hacts w0 w.
  destruct (run_keeps_awaiting acts w0 Hacts (new_markdown_awaiting id m))
    as (Hk & Hd & Hp & Hn).
  fold w in Hk, Hd, Hp, Hn.
  repeat split; try assumption.
  - rewrite (drain_markdown w Hk Hp), markdown_update_renderCount.
    cbn. rewrite Hd, andb_true_r. unfold renderCount in *. cbn.
    rewrite countRenders_app, Hn. by destruct (rendered (model w)).
  - rewrite (drain_markdown w Hk Hp). apply markdown_update_dirty.
Qed.

(** *** The layout of a markdown cell *)

Lemma new_markdown_stacked (id : nat) (m : CellModel) :
  stacked (new MarkdownCellWidget id m).
Proof. split; [reflexivity | left; reflexivity]. Qed.

Lemma markdown_update_stacked (w : World) :
  stacked w →
  layout (widget (MarkdownCellWidget_onUpdateRequest w)) =
  if rendered (model w) then [InputArea; Rendered] else [Rendered; InputArea].
Proof.
  intros (_ & Hl). rewrite markdown_update_layout.
  destruct Hl as [-> | ->], (rendered (model w)); reflexivity.
Qed.

Lemma step_keeps_stacked (a : Action) (w : World) :
  stacked w → stacked (step a w).
Proof.
  intros (Hk & Hl).
  destruct a as [f b | t | args |]; cbn [step]; unfold andThen.
  - pose proof (emit_frame (mkChangedArgs (facetName f) b)
                  (onModel (set_facet f b) w)) as H.
    cbv zeta in H. destruct H as (_ & Hk' & _ & _ & Hl').
    split; [by rewrite Hk' | by rewrite Hl'].
  - split; assumption.
  - pose proof (emit_frame args w) as H.
    cbv zeta in H. destruct H as (_ & Hk' & _ & _ & Hl').
    split; [by rewrite Hk' | by rewrite Hl'].
  - destruct (updatePending (widget w)) eqn:Hp.
    + rewrite (drain_markdown w Hk Hp).
      split.
      * rewrite MarkdownCellWidget_onUpdateRequest_eq,
          BaseCellWidget_onUpdateRequest_eq.
        cbn. destruct (rendered (model w) && _dirty (widget w)); exact Hk.
      * rewrite markdown_update_stacked by (split; assumption).
        cbn. destruct (rendered (model w)); auto.
    + unfold processMessages, cond, skip. rewrite Hp. split; assumption.
Qed.

Lemma run_keeps_stacked (acts : list Action) (w : World) :
  stacked w → stacked (run acts w).
Proof.
  revert w. induction acts as [| a acts IH]; intros w Hw; [exact Hw |].
  cbn [run]. unfold andThen. apply IH. by apply step_keeps_stacked.
Qed.

(** C7 (as the code has it). At every point after the construction of a
    markdown cell widget both sub-views, the input area and the rendered
    widget, are children of its layout, and they are its only children.  An
    applied update puts the one the [rendered] facet selects last, at index
    1, and the other first. *)
Theorem both_subviews_stay_in_layout
    (id : nat) (m : CellModel) (acts : list Action) :
  let w := run acts (new MarkdownCellWidget id m) in
  InputArea ∈ layout (widget w) ∧ Rendered ∈ layout (widget w) ∧
  length (layout (widget w)) = 2 ∧
  layout (widget (MarkdownCellWidget_onUpdateRequest w)) =
    (if rendered (model w) then [InputArea; Rendered] else [Rendered; InputArea]).
Proof.
  intros w.
  pose proof (run_keeps_stacked acts _ (new_markdown_stacked id m)) as Hs.
  fold w in Hs.
  split; [| split; [| split]]; [| | | by apply markdown_update_stacked].
  all: destruct Hs as (_ & [-> | ->]); cbn; try done; set_solver.
Qed.

(** *** The connection to the model *)

Lemma run_frame (acts : list Action) (w : World) :
  kind (widget (run acts w)) = kind (widget w) ∧
  self (widget (run acts w)) = self (widget w) ∧
  isDisposed (widget (run acts w)) = isDisposed (widget w) ∧
  stateChanged (model (run acts w)) = stateChanged (model w) ∧
  mimetype (textEditor (input (model (run acts w)))) =
    mimetype (textEditor (input (model w))).
Proof.
  revert w. induction acts as [| a acts IH]; intros w; [done |].
  cbn [run]. unfold andThen.
  destruct (IH (step a w)) as (-> & -> & -> & -> & ->).
  apply step_frame.
Qed.

Lemma new_connection (k : CellKind) (id : nat) (m : CellModel) :
  stateChanged (model (new k id m)) =
    stateChanged m ∪ {[("onModelChanged"%string, id)]} ∧
  self (widget (new k id m)) = id ∧
  isDisposed (widget (new k id m)) = false.
Proof. destruct k; repeat split. Qed.

Lemma dispose_connections (w : World) :
  isDisposed (widget w) = false →
  stateChanged (model (dispose w)) =
    filter (λ c, c.2 ≠ self (widget w)) (stateChanged (model w)) ∧
  self (widget (dispose w)) = self (widget w).
Proof. intros H. unfold dispose, cond. rewrite H. split; reflexivity. Qed.

(** C9. A cell widget of any kind connects one handler, its
    [onModelChanged], to the signal of its model when it is constructed;
    until it is disposed that is the one connection made for it.  Disposing
    of the widget removes it: no connection made for the widget is left, the
    connections of others are kept, and a change signalled afterwards does
    not reach the widget. *)
Theorem one_callback_until_disposed
    (k : CellKind) (id : nat) (m : CellModel) (acts : list Action) :
  (∀ c, c ∈ stateChanged m → c.2 ≠ id) →
  let w := run acts (new k id m) in
  (∀ c, c ∈ stateChanged (model w) ∧ c.2 = id ↔ c = ("onModelChanged"%string, id)) ∧
  (∀ c, c ∈ stateChanged (model (dispose w)) → c.2 ≠ id) ∧
  (∀ c, c.2 ≠ id → c ∈ stateChanged (model (dispose w)) ↔ c ∈ stateChanged m) ∧
  (∀ args, emit args (dispose w) = dispose w).
Proof.
  intros Hfresh w.
  destruct (run_frame acts (new k id m)) as (_ & Hself & Hdis & Hsc & _).
  destruct (new_connection k id m) as (Hnew & Hid & Hnd).
  fold w in Hself, Hdis, Hsc.
  rewrite Hid in Hself. rewrite Hnd in Hdis. rewrite Hnew in Hsc.
  destruct (dispose_connections w Hdis) as (Hd & Hds).
  rewrite Hself, Hsc in Hd. rewrite Hself in Hds.
  assert (Hgone : ∀ c, c ∈ stateChanged (model (dispose w)) → c.2 ≠ id).
  { intros c. rewrite Hd, elem_of_filter. tauto. }
  split; [| split; [exact Hgone | split]].
  - intros c. rewrite Hsc, elem_of_union, elem_of_singleton. split.
    + intros ([Hin | ->] & Hc); [by apply Hfresh in Hin | done].
    + intros ->. auto.
  - intros c Hc. rewrite Hd, elem_of_filter, elem_of_union, elem_of_singleton.
    split; [| tauto].
    intros (_ & [Hin | ->]); [done | by destruct Hc].
  - intros args. unfold emit, cond, skip.
    rewrite bool_decide_eq_false_2; [done |].
    intros Hin. apply Hgone in Hin. apply Hin.
    unfold onModelChanged_slot. by rewrite Hds.
Qed.

(** *** The layout of a code cell *)

Lemma emit_keeps_inputAboveOutput (args : IChangedArgs) (w : World) :
  inputAboveOutput w → inputAboveOutput (emit args w).
Proof.
  intros (Hk & Hl & Hn). unfold emit, cond, skip.
  destruct (bool_decide _); [| done].
  unfold onModelChanged. rewrite Hk, BaseCellWidget_onModelChanged_eq.
  unfold inputAboveOutput, renderCount in *.
  generalize (String.eqb (name args) "focused" && newValue args).
  intros []; cbn; rewrite ?countRenders_app, ?Hn; done.
Qed.

Lemma step_keeps_inputAboveOutput (a : Action) (w : World) :
  inputAboveOutput w → inputAboveOutput (step a w).
Proof.
  intros Hw. destruct a as [f b | t | args |]; cbn [step]; unfold andThen.
  - apply emit_keeps_inputAboveOutput. exact Hw.
  - exact Hw.
  - by apply emit_keeps_inputAboveOutput.
  - destruct Hw as (Hk & Hl & Hn).
    unfold processMessages, cond, skip, andThen, onUpdateRequest.
    destruct (updatePending (widget w)); [| done].
    cbn [onWidget widget kind log set_updatePending].
    rewrite Hk, BaseCellWidget_onUpdateRequest_eq.
    unfold inputAboveOutput, renderCount in *. cbn.
    rewrite countRenders_app, Hn. done.
Qed.

Lemma new_code_inputAboveOutput (id : nat) (m : CellModel) :
  inputAboveOutput (new CodeCellWidget id m).
Proof. repeat split. Qed.

Lemma run_keeps_inputAboveOutput (acts : list Action) (w : World) :
  inputAboveOutput w → inputAboveOutput (run acts w).
Proof.
  revert w. induction acts as [| a acts IH]; intros w Hw; [exact Hw |].
  cbn [run]. unfold andThen. apply IH. by apply step_keeps_inputAboveOutput.
Qed.

(** The spec's code cell scenario: whatever happens to a code cell widget
    and its model, its layout holds the input area above the output area,
    and it never renders. *)
Theorem code_cell_layout_is_fixed (id : nat) (m : CellModel) (acts : list Action) :
  let w := run acts (new CodeCellWidget id m) in
  layout (widget w) = [InputArea; OutputArea] ∧ renderCount w = 0.
Proof.
  intros w.
  destruct (run_keeps_inputAboveOutput acts _ (new_code_inputAboveOutput id m))
    as (_ & Hl & Hn).
  split; assumption.
Qed.

(** An update of a markdown cell widget applied right after another one
    calls nothing of the render computation and leaves the rendered HTML
    and the dirty flag as the first left them. *)
Theorem repeated_update_does_not_render (w : World) :
  let w1 := MarkdownCellWidget_onUpdateRequest w in
  let w2 := MarkdownCellWidget_onUpdateRequest w1 in
  effects (widget w2) = effects (widget w1) ∧
  innerHTML (widget w2) = innerHTML (widget w1) ∧
  _dirty (widget w2) = false.
Proof.
  intros w1 w2. subst w2.
  rewrite markdown_update_effects, markdown_update_innerHTML,
    markdown_update_dirty.
  subst w1. rewrite markdown_update_dirty, andb_false_r, app_nil_r. done.
Qed.

(** *** Notifications, one by one *)

Lemma countIf_app (p : Effect → bool) (es1 es2 : list Effect) :
  countIf p (es1 ++ es2) = countIf p es1 + countIf p es2.
Proof. induction es1 as [| e es1 IH]; cbn; [done | rewrite IH; lia]. Qed.

Lemma emit_connected (args : IChangedArgs) (w : World) :
  connected w → emit args w = onModelChanged args w.
Proof. intros Hc. unfold emit, cond. by rewrite bool_decide_eq_true_2. Qed.

Lemma emit_not_connected (args : IChangedArgs) (w : World) :
  ¬ connected w → emit args w = w.
Proof. intros Hc. unfold emit, cond, skip. by rewrite bool_decide_eq_false_2. Qed.

Lemma step_connected (a : Action) (w : World) :
  connected w ↔ connected (step a w).
Proof.
  unfold connected, onModelChanged_slot.
  pose proof (step_frame a w) as H. cbv zeta in H.
  destruct H as (_ & -> & _ & -> & _). done.
Qed.

Lemma onModelChanged_effects (args : IChangedArgs) (w : World) :
  effects (widget (onModelChanged args w)) =
  effects (widget w) ++
    (if String.eqb (name args) "focused" && newValue args
     then [CallFocus] else []).
Proof.
  unfold onModelChanged.
  destruct (kind (widget w));
    rewrite ?MarkdownCellWidget_onModelChanged_eq, ?BaseCellWidget_onModelChanged_eq;
    generalize (String.eqb (name args) "focused" && newValue args);
    generalize (String.eqb (name args) "rendered");
    intros [] []; cbn; rewrite ?app_nil_r; done.
Qed.

Lemma onModelChanged_dirty (args : IChangedArgs) (w : World) :
  String.eqb (name args) "rendered" = false →
  _dirty (widget (onModelChanged args w)) = _dirty (widget w).
Proof.
  intros Hn. unfold onModelChanged.
  destruct (kind (widget w));
    rewrite ?MarkdownCellWidget_onModelChanged_eq, ?BaseCellWidget_onModelChanged_eq,
            ?Hn;
    generalize (String.eqb (name args) "focused" && newValue args);
    intros []; reflexivity.
Qed.

Lemma onUpdateRequest_clean (w : World) :
  _dirty (widget w) = false →
  effects (widget (onUpdateRequest w)) = effects (widget w) ∧
  innerHTML (widget (onUpdateRequest w)) = innerHTML (widget w) ∧
  _dirty (widget (onUpdateRequest w)) = false.
Proof.
  intros Hd. unfold onUpdateRequest. destruct (kind (widget w)).
  1, 2, 4: rewrite BaseCellWidget_onUpdateRequest_eq; cbn; done.
  rewrite markdown_update_effects, markdown_update_innerHTML,
    markdown_update_dirty, Hd, andb_false_r, app_nil_r. done.
Qed.

Lemma onUpdateRequest_focusCount (w : World) :
  focusCount (onUpdateRequest w) = focusCount w.
Proof.
  unfold onUpdateRequest, focusCount. destruct (kind (widget w)).
  1, 2, 4: rewrite BaseCellWidget_onUpdateRequest_eq; reflexivity.
  rewrite markdown_update_effects, countIf_app.
  destruct (rendered (model w) && _dirty (widget w)); cbn; lia.
Qed.

Lemma step_focusCount (a : Action) (w : World) :
  connected w →
  focusCount (step a w) = focusCount w + (if signalsFocus a then 1 else 0).
Proof.
  intros Hc. destruct a as [f b | t | args |]; cbn [step signalsFocus];
    unfold andThen.
  - rewrite emit_connected by (destruct f; exact Hc).
    unfold focusCount. rewrite onModelChanged_effects, countIf_app. cbn.
    destruct (String.eqb (facetName f) "focused" && b); reflexivity.
  - unfold focusCount. cbn [onModel widget]. lia.
  - rewrite emit_connected by exact Hc.
    unfold focusCount. rewrite onModelChanged_effects, countIf_app.
    destruct (String.eqb (name args) "focused" && newValue args); reflexivity.
  - unfold processMessages, cond, skip, andThen.
    destruct (updatePending (widget w)); [| lia].
    rewrite onUpdateRequest_focusCount. unfold focusCount. cbn.
    rewrite countIf_app. cbn. lia.
Qed.

(** The editor is asked for the focus once for every notification that
    names [focused] with a true new value, and by nothing else: not by a
    notification of another facet or of [focused] going false, not by a
    text edit, not by an update. *)
Theorem focus_once_per_focused_notification (acts : list Action) (w : World) :
  connected w →
  focusCount (run acts w) = focusCount w + countActions signalsFocus acts.
Proof.
  revert w. induction acts as [| a acts IH]; intros w Hc; cbn [run countActions].
  - unfold skip. lia.
  - unfold andThen. rewrite IH by (by apply step_connected).
    rewrite (step_focusCount a w Hc). lia.
Qed.

(** *** Edits of the text *)

Lemma step_keeps_clean (a : Action) (w : World) :
  signalsRendered a = false →
  _dirty (widget w) = false →
  _dirty (widget (step a w)) = false ∧
  innerHTML (widget (step a w)) = innerHTML (widget w) ∧
  renderCount (step a w) = renderCount w.
Proof.
  intros Ha Hd.
  assert (Hemit : ∀ args w0, String.eqb (name args) "rendered" = false →
            _dirty (widget w0) = false →
            _dirty (widget (emit args w0)) = false ∧
            innerHTML (widget (emit args w0)) = innerHTML (widget w0) ∧
            renderCount (emit args w0) = renderCount w0).
  { intros args w0 Hn Hd0. unfold emit, cond, skip.
    destruct (bool_decide _); [| done].
    pose proof (onModelChanged_frame args w0) as Hf. cbv zeta in Hf.
    destruct Hf as (_ & _ & _ & _ & _ & _ & Hh & _).
    rewrite (onModelChanged_dirty args w0 Hn), Hh.
    unfold renderCount. rewrite onModelChanged_effects, countRenders_app.
    destruct (String.eqb (name args) "focused" && newValue args); cbn;
      (split; [done | split; [done | lia]]). }
  destruct a as [f b | t | args |]; cbn [step signalsRendered] in *;
    unfold andThen.
  - apply (Hemit _ (onModel (set_facet f b) w)); done.
  - done.
  - by apply Hemit.
  - unfold processMessages, cond, skip, andThen.
    destruct (updatePending (widget w)); [| done].
    destruct (onUpdateRequest_clean
      (onWidget (log [DeliverUpdateRequest]) (onWidget (set_updatePending false) w)))
      as (He & Hh & Hd'); [exact Hd |].
    rewrite Hd', Hh. unfold renderCount. rewrite He. cbn.
    rewrite countRenders_app. cbn. split; [done | split; [done | lia]].
Qed.

(** The rendered text is not kept up to date with the text: as long as no
    notification names [rendered], whatever else happens (text edits,
    changes of the other facets, updates) runs no render computation and
    leaves the rendered HTML of a widget whose dirty flag is clear as it
    is. *)
Theorem only_rendered_notification_rerenders (acts : list Action) (w : World) :
  _dirty (widget w) = false →
  Forall (λ a, signalsRendered a = false) acts →
  _dirty (widget (run acts w)) = false ∧
  innerHTML (widget (run acts w)) = innerHTML (widget w) ∧
  renderCount (run acts w) = renderCount w.
Proof.
  intros Hd Hacts. revert w Hd.
  induction Hacts as [| a acts Ha _ IH]; intros w Hd; [done |].
  cbn [run]. unfold andThen.
  destruct (step_keeps_clean a w Ha Hd) as (Hd1 & Hh1 & Hn1).
  destruct (IH _ Hd1) as (-> & -> & ->). done.
Qed.

(** A render computation reads the text when the update is applied, not
    when the notification arrived: a text edit made between the
    notification that the cell is rendered and the update is in the HTML. *)
Theorem render_uses_text_at_update_time (s : string) (w : World) :
  kind (widget w) = MarkdownCellWidget →
  connected w →
  let w' := run [SetFacet FRendered true; SetText s; ProcessMessages] w in
  innerHTML (widget w') = pipeline s ∧
  renderCount w' = S (renderCount w) ∧
  _dirty (widget w') = false.
Proof.
  intros Hk Hc w'. subst w'. cbn [run]. unfold andThen, skip.
  rewrite (notify_markdown _ _ _ Hk Hc), MarkdownCellWidget_onModelChanged_eq.
  cbn [step]. rewrite drain_markdown by (cbn; done).
  rewrite markdown_update_innerHTML, markdown_update_renderCount,
    markdown_update_dirty.
  cbn. unfold renderCount. cbn. rewrite countRenders_app. cbn.
  split; [done | split; [lia | done]].
Qed.

(** *** The model under the widget *)

Lemma emit_model (args : IChangedArgs) (w : World) :
  model (emit args w) = model w.
Proof. pose proof (emit_frame args w) as H. cbv zeta in H. tauto. Qed.

Lemma step_model (a : Action) (w : World) :
  model (step a w) = applyToModel a (model w).
Proof.
  destruct a as [f b | t | args |]; cbn [step applyToModel]; unfold andThen.
  - by rewrite emit_model.
  - done.
  - apply emit_model.
  - pose proof (processMessages_frame w) as H. cbv zeta in H. tauto.
Qed.

(** The widget only reads the model it is bound to.  Constructing a widget
    of any kind leaves the four facets and the text of the model as they
    are, and from then on the model is what the notebook's own changes make
    of it: no handler and no update writes to it. *)
Theorem widget_writes_nothing_to_model
    (k : CellKind) (id : nat) (m : CellModel) (acts : list Action) (w : World) :
  selected (model (new k id m)) = selected m ∧
  marked (model (new k id m)) = marked m ∧
  focused (model (new k id m)) = focused m ∧
  rendered (model (new k id m)) = rendered m ∧
  text (textEditor (input (model (new k id m)))) = text (textEditor (input m)) ∧
  model (run acts w) = modelAfter acts (model w).
Proof.
  repeat split; try (destruct k; reflexivity).
  revert w. induction acts as [| a acts IH]; intros w; [done |].
  cbn [run modelAfter]. unfold andThen. by rewrite IH, step_model.
Qed.

(** The handler of a change notification does no visual work itself,
    whatever the notification and the kind of widget: the classes, the
    layout and the rendered HTML are untouched and nothing is rendered; it
    only leaves an update requested. *)
Theorem handler_defers_visual_work (args : IChangedArgs) (w : World) :
  let w' := onModelChanged args w in
  classList (widget w') = classList (widget w) ∧
  layout (widget w') = layout (widget w) ∧
  innerHTML (widget w') = innerHTML (widget w) ∧
  renderCount w' = renderCount w ∧
  deliveryCount w' = deliveryCount w ∧
  updatePending (widget w') = true.
Proof.
  intros w'.
  pose proof (onModelChanged_frame args w) as Hf. cbv zeta in Hf. fold w' in Hf.
  destruct Hf as (_ & _ & _ & _ & Hl & Hc & Hh & Hp).
  unfold renderCount, deliveryCount. subst w'.
  rewrite onModelChanged_effects, countRenders_app, countIf_app.
  destruct (String.eqb (name args) "focused" && newValue args); cbn;
    repeat split; try assumption; lia.
Qed.

(** *** A batch of facet changes *)

Lemma changes_run (changes : list (Facet * bool)) (w : World) :
  connected w →
  let w' := run (changeFacet <$> changes) w in
  connected w' ∧ kind (widget w') = kind (widget w) ∧
  deliveryCount w' = deliveryCount w ∧
  (changes ≠ [] → updatePending (widget w') = true).
Proof.
  revert w. induction changes as [| [f b] changes IH]; intros w Hc; [done |].
  cbn [fmap list_fmap run]. unfold andThen.
  set (w1 := step (changeFacet (f, b)) w).
  assert (Hc1 : connected w1) by (by apply step_connected).
  assert (Hw1 : kind (widget w1) = kind (widget w) ∧
                deliveryCount w1 = deliveryCount w ∧
                updatePending (widget w1) = true).
  { subst w1. unfold changeFacet. cbn [step fst snd]. unfold andThen.
    rewrite emit_connected by (destruct f; exact Hc).
    pose proof (onModelChanged_frame (mkChangedArgs (facetName f) b)
                  (onModel (set_facet f b) w)) as Hf.
    cbv zeta in Hf. destruct Hf as (_ & Hk & _ & _ & _ & _ & _ & Hp).
    unfold deliveryCount. rewrite onModelChanged_effects, countIf_app.
    cbn [name newValue].
    destruct (String.eqb (facetName f) "focused" && b); cbn;
      (split; [exact Hk | split; [lia | exact Hp]]). }
  destruct Hw1 as (Hk1 & Hd1 & Hp1).
  destruct (IH w1 Hc1) as (Hc' & Hk' & Hd' & Hp').
  fold (list_fmap _ _ changeFacet changes) in *.
  split; [exact Hc' | split; [congruence | split; [congruence |]]].
  intros _. destruct changes as [| c changes]; [exact Hp1 | by apply Hp'].
Qed.

Lemma onUpdateRequest_deliveryCount (w : World) :
  deliveryCount (onUpdateRequest w) = deliveryCount w.
Proof.
  unfold onUpdateRequest, deliveryCount. destruct (kind (widget w)).
  1, 2, 4: rewrite BaseCellWidget_onUpdateRequest_eq; reflexivity.
  rewrite markdown_update_effects, countIf_app.
  destruct (rendered (model w) && _dirty (widget w)); cbn; lia.
Qed.

Lemma markdown_update_rendered_class (w : World) :
  RENDERED_CLASS ∈ classList (widget (MarkdownCellWidget_onUpdateRequest w)) ↔
  rendered (model w) = true.
Proof.
  rewrite MarkdownCellWidget_onUpdateRequest_eq, BaseCellWidget_onUpdateRequest_eq.
  destruct flag_classes_distinct as (_ & _ & Hs & _ & Hm & Hf).
  cbn [onWidget set_classList set_dirty set_layout postIf classList widget model].
  rewrite !elem_of_toggled.
  destruct (rendered (model w)); intuition congruence.
Qed.

(** However many facet changes are signalled before the message loop runs,
    once it has run the classes show the model as it is then, not as it
    was at any of the notifications: each of the three base flags, and on
    a markdown cell the rendered flag too, is on exactly when its facet is
    true. *)
Theorem classes_follow_model_after_batch
    (changes : list (Facet * bool)) (w : World) :
  connected w →
  changes ≠ [] →
  let w' := processMessages (run (changeFacet <$> changes) w) in
  model w' = modelAfter (changeFacet <$> changes) (model w) ∧
  (SELECTED_CLASS ∈ classList (widget w') ↔ selected (model w') = true) ∧
  (MARKED_CLASS ∈ classList (widget w') ↔ marked (model w') = true) ∧
  (FOCUSED_CLASS ∈ classList (widget w') ↔ focused (model w') = true) ∧
  (kind (widget w) = MarkdownCellWidget →
   (RENDERED_CLASS ∈ classList (widget w') ↔ rendered (model w') = true)).
Proof.
  intros Hc Hne w'.
  destruct (changes_run changes w Hc) as (_ & Hk & Hd & Hp).
  specialize (Hp Hne).
  set (w1 := run (changeFacet <$> changes) w) in *.
  set (w2 := onWidget (log [DeliverUpdateRequest])
               (onWidget (set_updatePending false) w1)).
  assert (Hw' : w' = onUpdateRequest w2).
  { subst w'. unfold processMessages, cond, andThen. by rewrite Hp. }
  assert (Hm : model w' = model w1).
  { rewrite Hw', onUpdateRequest_model. reflexivity. }
  assert (Hm1 : model w1 = modelAfter (changeFacet <$> changes) (model w)).
  { subst w1. clear. revert w.
    induction (changeFacet <$> changes) as [| a acts IH]; intros w; [done |].
    cbn [run modelAfter]. unfold andThen. by rewrite IH, step_model. }
  split; [congruence |].
  rewrite Hm.
  destruct (onUpdateRequest_classList w2) as (s0 & Hcl & Hs0).
  pose proof (toggled_flags _ _ _ _ (selected (model w2)) (marked (model w2))
                (focused (model w2)) s0 _ flag_classes_distinct Hs0) as Ht.
  cbv zeta in Ht. rewrite <- Hcl, <- Hw' in Ht.
  destruct Ht as (Hs & Hmk & Hf & _).
  split; [exact Hs | split; [exact Hmk | split; [exact Hf |]]].
  intros Hkm. rewrite Hw'. unfold onUpdateRequest.
  replace (kind (widget w2)) with MarkdownCellWidget by (cbn; congruence).
  change (model w1) with (model w2).
  apply markdown_update_rendered_class.
Qed.

(** *** The classes and the tab index the constructors set *)

Lemma onModelChanged_tabIndex (args : IChangedArgs) (w : World) :
  tabIndex (widget (onModelChanged args w)) = tabIndex (widget w).
Proof.
  unfold onModelChanged.
  destruct (kind (widget w));
    rewrite ?MarkdownCellWidget_onModelChanged_eq, ?BaseCellWidget_onModelChanged_eq;
    generalize (String.eqb (name args) "focused" && newValue args);
    generalize (String.eqb (name args) "rendered");
    intros [] []; reflexivity.
Qed.

Lemma onUpdateRequest_tabIndex (w : World) :
  tabIndex (widget (onUpdateRequest w)) = tabIndex (widget w).
Proof.
  unfold onUpdateRequest.
  destruct (kind (widget w));
    rewrite ?MarkdownCellWidget_onUpdateRequest_eq, ?BaseCellWidget_onUpdateRequest_eq;
    try reflexivity.
  cbn. destruct (rendered (model w) && _dirty (widget w)); reflexivity.
Qed.

Lemma onUpdateRequest_other_classes (w : World) (c : string) :
  c ∉ [SELECTED_CLASS; MARKED_CLASS; FOCUSED_CLASS; RENDERED_CLASS] →
  c ∈ classList (widget (onUpdateRequest w)) ↔ c ∈ classList (widget w).
Proof.
  destruct (onUpdateRequest_classList w) as (s0 & -> & Hs0).
  pose proof (toggled_flags _ _ _ _ (selected (model w)) (marked (model w))
                (focused (model w)) s0 _ flag_classes_distinct Hs0) as Ht.
  cbv zeta in Ht. destruct Ht as (_ & _ & _ & Ht). apply Ht.
Qed.

Lemma onUpdateRequest_rendered_class (w : World) :
  kind (widget w) ≠ MarkdownCellWidget →
  RENDERED_CLASS ∈ classList (widget (onUpdateRequest w)) ↔
  RENDERED_CLASS ∈ classList (widget w).
Proof.
  intros Hk. unfold onUpdateRequest.
  destruct flag_classes_distinct as (_ & _ & Hs & _ & Hm & Hf).
  destruct (kind (widget w)); try done;
    rewrite BaseCellWidget_onUpdateRequest_eq;
    cbn [onWidget set_classList classList widget];
    rewrite !elem_of_toggled; intuition congruence.
Qed.

Lemma step_identity (a : Action) (w : World) :
  tabIndex (widget (step a w)) = tabIndex (widget w) ∧
  (∀ c, c ∉ [SELECTED_CLASS; MARKED_CLASS; FOCUSED_CLASS; RENDERED_CLASS] →
        c ∈ classList (widget (step a w)) ↔ c ∈ classList (widget w)) ∧
  (kind (widget w) ≠ MarkdownCellWidget →
   RENDERED_CLASS ∈ classList (widget (step a w)) ↔
   RENDERED_CLASS ∈ classList (widget w)).
Proof.
  assert (Hemit : ∀ args w0,
            tabIndex (widget (emit args w0)) = tabIndex (widget w0) ∧
            classList (widget (emit args w0)) = classList (widget w0)).
  { intros args w0. unfold emit, cond, skip. destruct (bool_decide _); [| done].
    pose proof (onModelChanged_frame args w0) as Hf. cbv zeta in Hf.
    destruct Hf as (_ & _ & _ & _ & _ & Hc & _).
    split; [apply onModelChanged_tabIndex | exact Hc]. }
  destruct a as [f b | t | args |]; cbn [step]; unfold andThen.
  - destruct (Hemit (mkChangedArgs (facetName f) b) (onModel (set_facet f b) w))
      as (-> & ->). done.
  - done.
  - destruct (Hemit args w) as (-> & ->). done.
  - unfold processMessages, cond, skip, andThen.
    destruct (updatePending (widget w)); [| done].
    set (w0 := onWidget (log [DeliverUpdateRequest])
                 (onWidget (set_updatePending false) w)).
    split; [apply (onUpdateRequest_tabIndex w0) |].
    split; [intros c Hc; apply (onUpdateRequest_other_classes w0 c Hc) |].
    intros Hk. apply (onUpdateRequest_rendered_class w0 Hk).
Qed.

Lemma run_identity (acts : list Action) (w : World) :
  tabIndex (widget (run acts w)) = tabIndex (widget w) ∧
  (∀ c, c ∉ [SELECTED_CLASS; MARKED_CLASS; FOCUSED_CLASS; RENDERED_CLASS] →
        c ∈ classList (widget (run acts w)) ↔ c ∈ classList (widget w)) ∧
  (kind (widget w) ≠ MarkdownCellWidget →
   RENDERED_CLASS ∈ classList (widget (run acts w)) ↔
   RENDERED_CLASS ∈ classList (widget w)).
Proof.
  revert w. induction acts as [| a acts IH]; intros w; [done |].
  cbn [run]. unfold andThen.
  destruct (IH (step a w)) as (Ht & Hc & Hr).
  destruct (step_identity a w) as (Ht1 & Hc1 & Hr1).
  pose proof (step_frame a w) as Hf. cbv zeta in Hf. destruct Hf as (Hk & _).
  split; [congruence |]. split.
  - intros c Hnot. rewrite (Hc c Hnot). by apply Hc1.
  - intros Hkm. rewrite Hr by congruence. by apply Hr1.
Qed.

Ltac split_cases H :=
  repeat match type of H with
         | _ ∨ _ => destruct H as [H | H]
         | False => destruct H
         end.

Lemma kind_classes_are_no_flags (c : string) :
  c ∈ [CELL_CLASS; CODE_CELL_CLASS; MARKDOWN_CELL_CLASS; RAW_CELL_CLASS] →
  c ∉ [SELECTED_CLASS; MARKED_CLASS; FOCUSED_CLASS; RENDERED_CLASS].
Proof.
  intros H. rewrite !elem_of_cons, elem_of_nil in H. rewrite !not_elem_of_cons.
  destruct H as [-> | [-> | [-> | [-> | []]]]];
    repeat split; try discriminate; apply not_elem_of_nil.
Qed.

(** A cell widget keeps what makes it a cell of its kind: at every point
    after construction it carries the cell class and the class of its own
    kind and of no other kind, and its node stays focusable with tab index
    -1.  A widget that is no markdown cell never carries the rendered
    class. *)
Theorem kind_classes_persist
    (k : CellKind) (id : nat) (m : CellModel) (acts : list Action) :
  let w := run acts (new k id m) in
  CELL_CLASS ∈ classList (widget w) ∧
  (CODE_CELL_CLASS ∈ classList (widget w) ↔ k = CodeCellWidget) ∧
  (MARKDOWN_CELL_CLASS ∈ classList (widget w) ↔ k = MarkdownCellWidget) ∧
  (RAW_CELL_CLASS ∈ classList (widget w) ↔ k = RawCellWidget) ∧
  tabIndex (widget w) = (-1)%Z ∧
  (k ≠ MarkdownCellWidget → RENDERED_CLASS ∉ classList (widget w)).
Proof.
  intros w.
  destruct (run_identity acts (new k id m)) as (Ht & Hc & Hr).
  fold w in Ht, Hc, Hr.
  assert (Hin : ∀ c,
    c ∈ [CELL_CLASS; CODE_CELL_CLASS; MARKDOWN_CELL_CLASS; RAW_CELL_CLASS] →
    c ∈ classList (widget w) ↔ c ∈ classList (widget (new k id m))).
  { intros c Hin. apply Hc. by apply kind_classes_are_no_flags. }
  rewrite (Hin CELL_CLASS), (Hin CODE_CELL_CLASS), (Hin MARKDOWN_CELL_CLASS),
    (Hin RAW_CELL_CLASS), Ht
    by (rewrite !elem_of_cons; auto).
  clear Hin Hc Ht.
  split; [| split; [| split; [| split; [| split]]]].
  - destruct k; cbn; rewrite !elem_of_union, !elem_of_singleton; auto.
  - destruct k; cbn; rewrite !elem_of_union, !elem_of_singleton;
      (split; intros H; [split_cases H; discriminate H || reflexivity |]);
      discriminate H || auto.
  - destruct k; cbn; rewrite !elem_of_union, !elem_of_singleton;
      (split; intros H; [split_cases H; discriminate H || reflexivity |]);
      discriminate H || auto.
  - destruct k; cbn; rewrite !elem_of_union, !elem_of_singleton;
      (split; intros H; [split_cases H; discriminate H || reflexivity |]);
      discriminate H || auto.
  - destruct k; reflexivity.
  - intros Hk. rewrite Hr by (destruct k; done).
    destruct k; try done; cbn;
      rewrite !elem_of_union, !elem_of_singleton;
      intros H; split_cases H; discriminate H.
Qed.

(** *** The layout of a raw cell *)

Lemma emit_keeps_inputOnly (args : IChangedArgs) (w : World) :
  inputOnly w → inputOnly (emit args w).
Proof.
  intros (Hk & Hl & Hn). unfold emit, cond, skip.
  destruct (bool_decide _); [| done].
  unfold onModelChanged. rewrite Hk, BaseCellWidget_onModelChanged_eq.
  unfold inputOnly, renderCount in *.
  generalize (String.eqb (name args) "focused" && newValue args).
  intros []; cbn; rewrite ?countRenders_app, ?Hn; done.
Qed.

Lemma step_keeps_inputOnly (a : Action) (w : World) :
  inputOnly w → inputOnly (step a w).
Proof.
  intros Hw. destruct a as [f b | t | args |]; cbn [step]; unfold andThen.
  - apply emit_keeps_inputOnly. exact Hw.
  - exact Hw.
  - by apply emit_keeps_inputOnly.
  - destruct Hw as (Hk & Hl & Hn).
    unfold processMessages, cond, skip, andThen, onUpdateRequest.
    destruct (updatePending (widget w)); [| done].
    cbn [onWidget widget kind log set_updatePending].
    rewrite Hk, BaseCellWidget_onUpdateRequest_eq.
    unfold inputOnly, renderCount in *. cbn.
    rewrite countRenders_app, Hn. done.
Qed.

(** Whatever happens to a raw cell widget and its model, its layout holds
    the input area and nothing else, and it never renders. *)
Theorem raw_cell_shows_input_only (id : nat) (m : CellModel) (acts : list Action) :
  let w := run acts (new RawCellWidget id m) in
  layout (widget w) = [InputArea] ∧ renderCount w = 0.
Proof.
  intros w.
  assert (H : inputOnly w); [| destruct H as (_ & ? & ?); done].
  subst w. assert (H0 : inputOnly (new RawCellWidget id m)) by (repeat split).
  revert H0. generalize (new RawCellWidget id m).
  induction acts as [| a acts IH]; intros w0 Hw0; [exact Hw0 |].
  cbn [run]. unfold andThen. apply IH. by apply step_keeps_inputOnly.
Qed.

(** *** After disposal *)

Lemma step_inert (a : Action) (w : World) :
  inert w → widget (step a w) = widget w ∧ inert (step a w).
Proof.
  intros (Hc & Hp).
  assert (Hw : widget (step a w) = widget w).
  { destruct a as [f b | t | args |]; cbn [step]; unfold andThen.
    - rewrite emit_not_connected by (destruct f; exact Hc). done.
    - done.
    - by rewrite emit_not_connected.
    - unfold processMessages, cond, skip. by rewrite Hp. }
  split; [exact Hw |]. split.
  - by rewrite <- step_connected.
  - by rewrite Hw.
Qed.

Lemma dispose_inert (w : World) :
  isDisposed (widget w) = false → inert (dispose w).
Proof.
  intros Hd. destruct (dispose_connections w Hd) as (Hsc & Hself).
  split.
  - unfold connected, onModelChanged_slot. rewrite Hsc, Hself, elem_of_filter.
    cbn. tauto.
  - unfold dispose, cond. rewrite Hd. reflexivity.
Qed.

(** A disposed widget is out of the protocol: whatever happened to it
    before, nothing that happens to the model afterwards reaches it; it
    takes no focus, renders nothing, and its classes and its fields stay as
    disposal left them. *)
Theorem disposed_widget_is_inert
    (k : CellKind) (id : nat) (m : CellModel) (before after : list Action) :
  let w := dispose (run before (new k id m)) in
  widget (run after w) = widget w.
Proof.
  intros w.
  assert (Hw : inert w).
  { apply dispose_inert.
    destruct (run_frame before (new k id m)) as (_ & _ & -> & _).
    by destruct k. }
  clearbody w. revert w Hw.
  induction after as [| a acts IH]; intros w Hw; [done |].
  cbn [run]. unfold andThen.
  destruct (step_inert a w Hw) as (Heq & Hin).
  rewrite (IH _ Hin). exact Heq.
Qed.

(** *** An update applied twice *)

Lemma toggled3_twice (b1 b2 b3 : bool) (c1 c2 c3 : string) (s : gset string) :
  toggled b1 c1 (toggled b2 c2 (toggled b3 c3
    (toggled b1 c1 (toggled b2 c2 (toggled b3 c3 s))))) =
  toggled b1 c1 (toggled b2 c2 (toggled b3 c3 s)).
Proof. apply set_eq. intros x. rewrite !elem_of_toggled. tauto. Qed.

Lemma toggled4_twice (b1 b2 b3 b4 : bool) (c1 c2 c3 c4 : string) (s : gset string) :
  toggled b1 c1 (toggled b2 c2 (toggled b3 c3 (toggled b4 c4
    (toggled b1 c1 (toggled b2 c2 (toggled b3 c3 (toggled b4 c4 s))))))) =
  toggled b1 c1 (toggled b2 c2 (toggled b3 c3 (toggled b4 c4 s))).
Proof. apply set_eq. intros x. rewrite !elem_of_toggled. tauto. Qed.

Lemma base_update_classList (w : World) :
  classList (widget (BaseCellWidget_onUpdateRequest w)) =
  toggled (focused (model w)) FOCUSED_CLASS
    (toggled (marked (model w)) MARKED_CLASS
       (toggled (selected (model w)) SELECTED_CLASS (classList (widget w)))).
Proof. rewrite BaseCellWidget_onUpdateRequest_eq. reflexivity. Qed.

Lemma markdown_update_classList (w : World) :
  classList (widget (MarkdownCellWidget_onUpdateRequest w)) =
  toggled (focused (model w)) FOCUSED_CLASS
    (toggled (marked (model w)) MARKED_CLASS
       (toggled (selected (model w)) SELECTED_CLASS
          (toggled (rendered (model w)) RENDERED_CLASS (classList (widget w))))).
Proof.
  rewrite MarkdownCellWidget_onUpdateRequest_eq, BaseCellWidget_onUpdateRequest_eq.
  cbn. destruct (rendered (model w) && _dirty (widget w)); reflexivity.
Qed.

(** Applying an update is idempotent on the classes: a second update right
    after the first leaves the class list of a widget of any kind exactly
    as the first made it. *)
Theorem update_twice_same_classes (w : World) :
  classList (widget (onUpdateRequest (onUpdateRequest w))) =
  classList (widget (onUpdateRequest w)).
Proof.
  pose proof (onUpdateRequest_frame w) as Hf. cbv zeta in Hf.
  destruct Hf as (Hm & Hk & _).
  set (w1 := onUpdateRequest w) in *.
  assert (Hw1 : w1 = onUpdateRequest w) by reflexivity.
  clearbody w1. unfold onUpdateRequest in *. rewrite Hk.
  destruct (kind (widget w)); subst w1.
  1, 2, 4: rewrite (base_update_classList (BaseCellWidget_onUpdateRequest w)),
             Hm, base_update_classList; apply toggled3_twice.
  rewrite (markdown_update_classList (MarkdownCellWidget_onUpdateRequest w)),
    Hm, markdown_update_classList. apply toggled4_twice.
Qed.

(** *** Rendering for a batch of facet changes *)

Lemma change_markdown (fb : Facet * bool) (w : World) :
  kind (widget w) = MarkdownCellWidget → connected w →
  _dirty (widget (step (changeFacet fb) w)) =
    _dirty (widget w) || signalsRendered (changeFacet fb) ∧
  renderCount (step (changeFacet fb) w) = renderCount w.
Proof.
  intros Hk Hc. destruct fb as [f b]. unfold changeFacet. cbn [fst snd].
  rewrite (notify_markdown f b w Hk Hc), MarkdownCellWidget_onModelChanged_eq.
  unfold renderCount. cbn.
  destruct (String.eqb (facetName f) "rendered"),
           (String.eqb (facetName f) "focused" && b); cbn;
    rewrite ?countRenders_app, ?orb_true_r, ?orb_false_r; cbn;
    (split; [done | lia]).
Qed.

Lemma changes_markdown (changes : list (Facet * bool)) (w : World) :
  kind (widget w) = MarkdownCellWidget → connected w →
  let w' := run (changeFacet <$> changes) w in
  _dirty (widget w') =
    _dirty (widget w) || existsb signalsRendered (changeFacet <$> changes) ∧
  renderCount w' = renderCount w.
Proof.
  revert w. induction changes as [| fb changes IH]; intros w Hk Hc.
  - cbn. by rewrite orb_false_r.
  - cbn [fmap list_fmap run existsb]. unfold andThen.
    destruct (change_markdown fb w Hk Hc) as (Hd1 & Hn1).
    pose proof (step_frame (changeFacet fb) w) as Hf. cbv zeta in Hf.
    destruct Hf as (Hk1 & _).
    destruct (IH (step (changeFacet fb) w)) as (Hd & Hn);
      [congruence | by apply step_connected |].
    fold (list_fmap _ _ changeFacet changes) in *.
    rewrite Hd, Hn, Hd1, Hn1, orb_assoc. done.
Qed.

(** A batch of facet changes on a markdown cell renders at most once, when
    the update for it is applied, and only the state the model is in by then
    counts: it renders exactly when the model ends with [rendered] true and
    the dirty flag was set before or some change of the batch named
    [rendered].  A cell that entered and left the rendered state within
    the batch renders nothing. *)
Theorem batch_renders_at_most_once
    (changes : list (Facet * bool)) (w : World) :
  kind (widget w) = MarkdownCellWidget →
  connected w →
  changes ≠ [] →
  let w' := processMessages (run (changeFacet <$> changes) w) in
  renderCount w' =
    renderCount w +
    (if rendered (model w') &&
        (_dirty (widget w) || existsb signalsRendered (changeFacet <$> changes))
     then 1 else 0).
Proof.
  intros Hk Hc Hne w'.
  destruct (changes_run changes w Hc) as (_ & Hk1 & _ & Hp).
  specialize (Hp Hne).
  destruct (changes_markdown changes w Hk Hc) as (Hd & Hn).
  set (w1 := run (changeFacet <$> changes) w) in *.
  assert (Hm : model w' = model w1).
  { pose proof (processMessages_frame w1) as Hf. cbv zeta in Hf. tauto. }
  rewrite Hm. subst w'.
  rewrite drain_markdown by congruence.
  rewrite markdown_update_renderCount. cbn [onWidget model widget log
    set_updatePending _dirty].
  rewrite Hd. unfold renderCount in *. cbn [onWidget widget log
    set_updatePending effects].
  rewrite countRenders_app, Hn. cbn. lia.
Qed.

End Rendering.

(** ** The math guard across the markdown converter *)

Section MathGuardFacts.

Import MathGuard.

Variable sc : Scanner.
Variable markdownRender : tokens → tokens.

(** The tokens of a mapping built from [k] on are numbered from [k] on. *)
Lemma strip_keys (cs : list chunk) (k j : nat) (e : string) :
  (strip k cs).2 !! j = Some e → k ≤ j.
Proof.
  revert k. induction cs as [| [s | e0] cs IH]; intros k; cbn.
  - by rewrite lookup_empty.
  - apply IH.
  - destruct (decide (k = j)) as [-> | Hne]; [lia |].
    rewrite lookup_insert_ne by done. intros H%IH. lia.
Qed.

(** Every math expression has a token in the stripped text that the mapping
    sends back to it. *)
Lemma strip_sound (cs : list chunk) (k : nat) (e : string) :
  e ∈ expressions cs →
  ∃ j, Placeholder j ∈ (strip k cs).1 ∧ (strip k cs).2 !! j = Some e.
Proof.
  revert k. induction cs as [| [s | e0] cs IH]; intros k; cbn.
  - by intros ?%elem_of_nil.
  - intros (j & Hin & Hj)%(IH k). exists j. split; [| done].
    apply elem_of_app. by right.
  - intros [-> | Hin]%elem_of_cons.
    + exists k. split; [apply list_elem_of_here | apply lookup_insert_eq].
    + destruct (IH (S k) Hin) as (j & Hj & Hm). exists j.
      split; [by apply list_elem_of_further |].
      apply strip_keys in Hm as Hle.
      rewrite lookup_insert_ne by lia. done.
Qed.

(** Every math expression of a list of chunks is a span of the text the
    chunks spell out. *)
Lemma expression_is_span (cs : list chunk) (e : string) :
  e ∈ expressions cs → ∃ pre post, joined cs = pre +:+ e +:+ post.
Proof.
  induction cs as [| [s | e0] cs IH]; cbn.
  - by intros ?%elem_of_nil.
  - intros (pre & post & ->)%IH. exists (s +:+ pre), post.
    by rewrite append_assoc.
  - intros [-> | (pre & post & ->)%IH]%elem_of_cons.
    + by exists "", (joined cs).
    + exists (e0 +:+ pre), post. by rewrite append_assoc.
Qed.

(** Every expression the mapping holds is a math expression of the chunks:
    the mapping holds nothing else, and nothing altered. *)
Lemma strip_complete (cs : list chunk) (k j : nat) (e : string) :
  (strip k cs).2 !! j = Some e → e ∈ expressions cs.
Proof.
  revert k. induction cs as [| [s | e0] cs IH]; intros k; cbn.
  - by rewrite lookup_empty.
  - apply IH.
  - destruct (decide (k = j)) as [-> | Hne].
    + rewrite lookup_insert_eq. intros [= ->]. apply list_elem_of_here.
    + rewrite lookup_insert_ne by done. intros H%IH.
      by apply list_elem_of_further.
Qed.

Lemma restoreMath_app (h1 h2 : tokens) (mapping : gmap nat string) :
  restoreMath (h1 ++ h2) mapping = restoreMath h1 mapping ++ restoreMath h2 mapping.
Proof. unfold restoreMath. apply bind_app. Qed.

(** A token of the mapping that is in the HTML puts its expression into the
    restored HTML. *)
Lemma restoreMath_contains (html : tokens) (mapping : gmap nat string)
    (j : nat) (e : string) :
  Placeholder j ∈ html → mapping !! j = Some e →
  contains (restoreMath html mapping) e.
Proof.
  intros (h1 & h2 & ->)%list_elem_of_split Hj.
  exists (restoreMath h1 mapping), (restoreMath h2 mapping).
  rewrite restoreMath_app. f_equal.
  change (Placeholder j :: h2) with ([Placeholder j] ++ h2).
  rewrite restoreMath_app. f_equal.
  unfold restoreMath. cbn. rewrite Hj. apply app_nil_r.
Qed.

(** *** Restoring without a converter in between *)

Lemma verbatim_app (s1 s2 : string) :
  verbatim (s1 +:+ s2) = verbatim s1 ++ verbatim s2.
Proof.
  induction s1 as [| c s1 IH]; [reflexivity |].
  rewrite append_cons. cbn [verbatim app]. by rewrite IH.
Qed.

Lemma restoreMath_verbatim (s : string) (mapping : gmap nat string) :
  restoreMath (verbatim s) mapping = verbatim s.
Proof.
  unfold restoreMath. induction s as [| c s IH]; cbn; [done |].
  f_equal. exact IH.
Qed.

(** The tokens of a text stripped from [k] on are numbered from [k] on. *)
Lemma strip_tokens (cs : list chunk) (k j : nat) :
  Placeholder j ∈ (strip k cs).1 → k ≤ j.
Proof.
  revert k. induction cs as [| [s | e0] cs IH]; intros k; cbn.
  - by intros ?%elem_of_nil.
  - intros [Hin | Hin]%elem_of_app; [| by apply IH].
    exfalso. clear -Hin. induction s as [| c s IHs]; cbn in Hin.
    + by apply elem_of_nil in Hin.
    + apply elem_of_cons in Hin as [[=] | Hin]. by apply IHs.
  - intros [[= ->] | Hin%IH]%elem_of_cons; lia.
Qed.

Lemma restoreMath_insert (html : tokens) (mapping : gmap nat string)
    (k : nat) (e : string) :
  Placeholder k ∉ html →
  restoreMath html (<[k := e]> mapping) = restoreMath html mapping.
Proof.
  unfold restoreMath. induction html as [| x html IH]; [done |].
  intros Hnot. apply not_elem_of_cons in Hnot as (Hx & Hnot).
  cbn. rewrite (IH Hnot). f_equal.
  destruct x as [c | j]; [done |]. cbn.
  rewrite lookup_insert_ne by congruence. done.
Qed.

(** Restoring the math into the stripped text itself gives the text the
    chunks spell out: the guard, on its own, changes nothing. *)
Lemma restore_strip (cs : list chunk) (k : nat) :
  restoreMath (strip k cs).1 (strip k cs).2 = verbatim (joined cs).
Proof.
  revert k. induction cs as [| [s | e0] cs IH]; intros k;
    cbn [strip joined chunkText fst snd].
  - done.
  - by rewrite restoreMath_app, restoreMath_verbatim, IH, verbatim_app.
  - change (Placeholder k :: (strip (S k) cs).1)
      with ([Placeholder k] ++ (strip (S k) cs).1).
    rewrite restoreMath_app, verbatim_app. f_equal.
    + unfold restoreMath. cbn. rewrite lookup_insert_eq. apply app_nil_r.
    + rewrite restoreMath_insert; [apply IH |].
      intros Hin%strip_tokens. lia.
Qed.

Lemma restore_extract (t : string) :
  restoreMath (extractMath sc t).1 (extractMath sc t).2 = verbatim t.
Proof. unfold extractMath. by rewrite restore_strip, scan_spans. Qed.

(** C3. Every math expression of a text is a span of the text, and it is
    the span itself, unaltered, that comes back: whatever the markdown
    converter does to the prose around them, as long as it keeps the
    placeholder tokens of the stripped text, restoring the math into the
    converted text yields a text that contains every math expression of
    the input, character for character as it stands in the input.  The
    mapping holds nothing but these expressions. *)
Theorem math_survives_rendering (t : string) :
  (∀ k, Placeholder k ∈ (extractMath sc t).1 →
        Placeholder k ∈ markdownRender (extractMath sc t).1) →
  (∀ e, e ∈ expressions (scan sc t) →
        (∃ pre post, t = pre +:+ e +:+ post) ∧
        contains (restoreMath (markdownRender (extractMath sc t).1)
                    (extractMath sc t).2) e) ∧
  (∀ k e, (extractMath sc t).2 !! k = Some e →
          ∃ pre post, t = pre +:+ e +:+ post).
Proof.
  intros Hkeeps. split.
  - intros e He. split.
    + destruct (expression_is_span _ _ He) as (pre & post & Hj).
      exists pre, post. rewrite <- Hj. symmetry. apply scan_spans.
    + unfold extractMath in *.
      destruct (strip_sound (scan sc t) 0 e He) as (j & Hj & Hm).
      eapply restoreMath_contains; eauto.
  - intros k e Hk. unfold extractMath in Hk.
    destruct (expression_is_span _ _ (strip_complete _ _ _ _ Hk))
      as (pre & post & Hj).
    exists pre, post. rewrite <- Hj. symmetry. apply scan_spans.
Qed.

End MathGuardFacts.

(** ** The model after construction *)

(** C10. Constructing a markdown cell widget writes the mimetype
    text/x-ipythongfm to the text editor of the input of the model it is
    given, whatever that model is; the text and the facets stay. *)
Theorem markdown_constructor_sets_mimetype (id : nat) (m : CellModel) :
  let w := new MarkdownCellWidget id m in
  mimetype (textEditor (input (model w))) = "text/x-ipythongfm"%string ∧
  text (textEditor (input (model w))) = text (textEditor (input m)) ∧
  selected (model w) = selected m ∧ marked (model w) = marked m ∧
  focused (model w) = focused m ∧ rendered (model w) = rendered m.
Proof. destruct m as [? ? ? ? [[? ?]] ?]. repeat split. Qed.

(** The other kinds of cell widget leave the input of the model alone. *)
Lemma other_constructors_keep_input (k : CellKind) (id : nat) (m : CellModel) :
  k ≠ MarkdownCellWidget → input (model (new k id m)) = input m.
Proof. destruct k; [reflexivity.. | done | reflexivity]. Qed.

(** ** The sample cell, run *)

(** C5, where the claim fails: the sample markdown widget is constructed
    with the [rendered] facet false and the dirty flag set; the update
    applied to it renders nothing and yet clears the flag. *)
Lemma dirty_cleared_without_render :
  let w := sampleMarkdown false in
  let w' := MarkdownCellWidget_onUpdateRequest sampleRemoveMath paragraph
              MathGuard.restoreMath w in
  rendered (model w) = false ∧ _dirty (widget w) = true ∧
  renderCount w' = renderCount w ∧ _dirty (widget w') = false.
Proof. repeat split. Qed.

(** C6 on a markdown widget that has rendered the sample text once. *)
Lemma clean_update_reuses_rendered_content_witness :
  let w := processMessages sampleRemoveMath paragraph MathGuard.restoreMath
             (sampleMarkdown true) in
  let w' := MarkdownCellWidget_onUpdateRequest sampleRemoveMath paragraph
              MathGuard.restoreMath w in
  effects (widget w') = effects (widget w) ∧
  innerHTML (widget w') = innerHTML (widget w) ∧
  model w' = model w.
Proof.
  apply (clean_update_reuses_rendered_content sampleRemoveMath paragraph
           MathGuard.restoreMath); reflexivity.
Defined.




(** C4 on the sample markdown widget. *)
Lemma focus_precedes_scheduled_update_witness :
  let w := sampleMarkdown true in
  let w' := onModelChanged (mkChangedArgs "focused" true) w in
  effects (widget w') = effects (widget w) ++ [CallFocus] ∧
  updatePending (widget w') = true ∧
  ∃ es, effects (widget (processMessages sampleRemoveMath paragraph
                           MathGuard.restoreMath w')) =
        effects (widget w) ++ CallFocus :: DeliverUpdateRequest :: es.
Proof.
  pose proof (focus_precedes_scheduled_update sampleRemoveMath paragraph
                MathGuard.restoreMath (mkChangedArgs "focused" true)
                (sampleMarkdown true) eq_refl eq_refl) as H.
  cbv zeta in H. destruct H as (H1 & H2 & _ & _ & _ & H3).
  exact (conj H1 (conj H2 H3)).
Defined.

(** C7, where the claim fails: as constructed, and again after its first
    update, the sample markdown widget has both sub-views in its layout, not
    one of them. *)
Lemma both_subviews_attached :
  let w := sampleMarkdown false in
  let w' := processMessages sampleRemoveMath paragraph MathGuard.restoreMath w in
  layout (widget w) = [InputArea; Rendered] ∧
  layout (widget w') = [Rendered; InputArea].
Proof. split; reflexivity. Qed.

(** C8, where the claim fails: the sample markdown widget is constructed
    with its dirty flag set, and its first update, applied with the
    [rendered] facet false, calls nothing of the render computation. *)
Lemma first_update_without_render :
  let w := sampleMarkdown false in
  let w' := processMessages sampleRemoveMath paragraph MathGuard.restoreMath w in
  _dirty (widget w) = true ∧ updatePending (widget w) = true ∧
  effects (widget w') = [DeliverUpdateRequest] ∧ renderCount w' = 0.
Proof. repeat split. Qed.

(** C8 on the sample markdown widget, focused and edited before its first
    update. *)
Lemma first_update_renders_iff_rendered_witness :
  let acts := [SetFacet FFocused true; SetText "x"; SetFacet FRendered true] in
  let w := run sampleRemoveMath paragraph MathGuard.restoreMath acts
             (sampleMarkdown false) in
  renderCount w = 0 ∧
  renderCount (processMessages sampleRemoveMath paragraph
                 MathGuard.restoreMath w) = 1.
Proof.
  assert (Hacts : Forall (λ a, a ≠ ProcessMessages)
            [SetFacet FFocused true; SetText "x"; SetFacet FRendered true])
    by (repeat constructor; discriminate).
  pose proof (first_update_renders_iff_rendered sampleRemoveMath paragraph
                MathGuard.restoreMath 7 (sampleModel false) _ Hacts) as H.
  cbv zeta in H. destruct H as (_ & _ & _ & _ & H0 & H1 & _).
  split; [exact H0 | exact H1].
Defined.

(** C9 on a code cell widget over the sample model. *)
Lemma one_callback_until_disposed_witness :
  let w := run sampleRemoveMath paragraph MathGuard.restoreMath
             [SetFacet FSelected true; ProcessMessages]
             (new CodeCellWidget 7 (sampleModel false)) in
  (∀ c, c ∈ stateChanged (model w) ∧ c.2 = 7 ↔ c = ("onModelChanged"%string, 7)) ∧
  (∀ c, c ∈ stateChanged (model (dispose w)) → c.2 ≠ 7).
Proof.
  assert (Hfresh : ∀ c : Connection, c ∈ stateChanged (sampleModel false) → c.2 ≠ 7).
  { intros c Hc. by apply not_elem_of_empty in Hc. }
  pose proof (one_callback_until_disposed sampleRemoveMath paragraph
                MathGuard.restoreMath CodeCellWidget 7 (sampleModel false)
                [SetFacet FSelected true; ProcessMessages] Hfresh) as H.
  cbv zeta in H. destruct H as (H1 & H2 & _). split; [exact H1 | exact H2].
Defined.

(** C3 on the sample text, with a converter that wraps the stripped text in
    a paragraph. *)
Lemma math_survives_rendering_witness :
  (∃ pre post, sampleText = pre +:+ "$E=mc^2$" +:+ post) ∧
  MathGuard.contains
    (MathGuard.restoreMath (paragraph (sampleRemoveMath sampleText).1)
       (sampleRemoveMath sampleText).2)
    "$E=mc^2$".
Proof.
  refine (proj1 (math_survives_rendering MathGuard.inlineScanner paragraph
                   sampleText _) "$E=mc^2$" _).
  - intros k Hk. unfold paragraph. apply elem_of_app. right.
    apply elem_of_app. by left.
  - apply list_elem_of_here.
Defined.

Lemma sampleMarkdown_connected (r : bool) : connected (sampleMarkdown r).
Proof.
  unfold connected. apply elem_of_union_r, elem_of_singleton. reflexivity.
Qed.

(** The sample markdown widget, focused twice and blurred once. *)
Lemma focus_once_per_focused_notification_witness :
  let acts := [SetFacet FFocused true; SetFacet FFocused false;
               Emit (mkChangedArgs "focused" true);
               SetFacet FSelected true; ProcessMessages] in
  let run := run sampleRemoveMath paragraph MathGuard.restoreMath in
  focusCount (run acts (sampleMarkdown false)) =
  focusCount (sampleMarkdown false) + countActions signalsFocus acts.
Proof.
  exact (focus_once_per_focused_notification sampleRemoveMath paragraph
           MathGuard.restoreMath _ (sampleMarkdown false)
           (sampleMarkdown_connected false)).
Defined.

(** The sample markdown widget, rendered once and then edited. *)
Lemma only_rendered_notification_rerenders_witness :
  let w := processMessages sampleRemoveMath paragraph MathGuard.restoreMath
             (sampleMarkdown true) in
  let acts := [SetText "edited"; SetFacet FSelected true; ProcessMessages] in
  let w' := run sampleRemoveMath paragraph MathGuard.restoreMath acts w in
  _dirty (widget w') = false ∧
  innerHTML (widget w') = innerHTML (widget w) ∧
  renderCount w' = renderCount w.
Proof.
  apply (only_rendered_notification_rerenders sampleRemoveMath paragraph
           MathGuard.restoreMath).
  - reflexivity.
  - repeat constructor.
Defined.

(** The sample markdown widget, edited between the notification and the
    update. *)
Lemma render_uses_text_at_update_time_witness :
  let w' := run sampleRemoveMath paragraph MathGuard.restoreMath
              [SetFacet FRendered true; SetText "$x$"; ProcessMessages]
              (sampleMarkdown false) in
  innerHTML (widget w') =
    pipeline sampleRemoveMath paragraph MathGuard.restoreMath "$x$" ∧
  renderCount w' = S (renderCount (sampleMarkdown false)) ∧
  _dirty (widget w') = false.
Proof.
  exact (render_uses_text_at_update_time sampleRemoveMath paragraph
           MathGuard.restoreMath "$x$" (sampleMarkdown false) eq_refl
           (sampleMarkdown_connected false)).
Defined.

(** The sample markdown widget under three changes in one batch. *)
Lemma classes_follow_model_after_batch_witness :
  let changes := [(FSelected, true); (FRendered, true); (FSelected, false)] in
  let w' := processMessages sampleRemoveMath paragraph MathGuard.restoreMath
              (run sampleRemoveMath paragraph MathGuard.restoreMath
                 (changeFacet <$> changes) (sampleMarkdown false)) in
  (SELECTED_CLASS ∈ classList (widget w') ↔ selected (model w') = true) ∧
  (MARKED_CLASS ∈ classList (widget w') ↔ marked (model w') = true).
Proof.
  assert (Hne : [(FSelected, true); (FRendered, true); (FSelected, false)]
                ≠ @nil (Facet * bool)) by discriminate.
  pose proof (classes_follow_model_after_batch sampleRemoveMath paragraph
                MathGuard.restoreMath _ (sampleMarkdown false)
                (sampleMarkdown_connected false) Hne) as H.
  cbv zeta in H. destruct H as (_ & H1 & H2 & _).
  exact (conj H1 H2).
Defined.

(** The sample markdown widget entering and leaving the rendered state in
    one batch. *)
Lemma batch_renders_at_most_once_witness :
  let changes := [(FRendered, true); (FRendered, false)] in
  let w' := processMessages sampleRemoveMath paragraph MathGuard.restoreMath
              (run sampleRemoveMath paragraph MathGuard.restoreMath
                 (changeFacet <$> changes) (sampleMarkdown false)) in
  renderCount w' =
    renderCount (sampleMarkdown false) +
    (if rendered (model w') &&
        (_dirty (widget (sampleMarkdown false)) ||
         existsb signalsRendered (changeFacet <$> changes))
     then 1 else 0).
Proof.
  assert (Hne : [(FRendered, true); (FRendered, false)]
                ≠ @nil (Facet * bool)) by discriminate.
  exact (batch_renders_at_most_once sampleRemoveMath paragraph
           MathGuard.restoreMath _ (sampleMarkdown false) eq_refl
           (sampleMarkdown_connected false) Hne).
Defined.
